(** * Chef API server (index.js): a shallow embedding and its properties

    The development follows the layout of [index.js]:

    - [JS]        the JavaScript values a parsed JSON body is made of, with
                  truthiness, [||], [typeof], [Boolean] and [Array.isArray];
    - [Str]       [String.prototype.split] and [String.prototype.trim];
    - [Cors]      the allow-list computed at start-up;
    - [Config]    the constants read from the process environment;
    - [ObjectId]  the driver's identifier type ([isValid], the constructor,
                  [toHexString]);
    - [User], [Item]  the documents the two create handlers build;
    - the request monad (environment, server state, exceptions), the driver
      operations on the two collections, [connectToMongo] and the handlers;
    - the properties.

    [index.js] carries the server twice; the second copy is an earlier
    version without [connectToMongo] and the root route, whose handlers are
    otherwise the same.  The embedding is of the first copy.

    The MongoDB deployment is not part of the repository.  It is modelled as
    two lists of stored documents in natural (insertion) order, a unique index
    on [_id], and a log of every call the process makes to the driver.  Each
    request runs against an environment giving the clock, the identifier the
    driver generates for an insert and whether the deployment can be reached
    during the request.  Handlers run one after the other (no interleaving of
    their awaits). *)

From Stdlib Require Import Bool List String Ascii ZArith QArith Lia.
From Stdlib Require Import Sorted Permutation.
Import ListNotations.
Local Open Scope string_scope.
Local Open Scope Z_scope.
Set Warnings "-register-all".

(* ===================================================================== *)
(** ** JavaScript values *)
(* ===================================================================== *)

Module JS.

(** What [express.json()] hands to a handler as [req.body]: [undefined]
    when no body was parsed, otherwise a JSON value.  Numbers are the finite
    doubles JSON can carry, kept as the rational they denote; strings are
    sequences of code units below 256; an object is its list of properties
    in insertion order. *)
Inductive value : Type :=
| VUndefined
| VNull
| VBool (b : bool)
| VNum (q : Q)
| VStr (s : string)
| VArr (xs : list value)
| VObj (fields : list (string * value)).

(** [ToBoolean]: what [!x], [x || y] and [Boolean(x)] test. *)
Definition truthy (v : value) : bool :=
  match v with
  | VUndefined | VNull => false
  | VBool b => b
  | VNum q => negb (Qeq_bool q 0)
  | VStr s => negb (String.eqb s "")
  | VArr _ | VObj _ => true
  end.

(** [a || b] *)
Definition or (a b : value) : value := if truthy a then a else b.

(** [typeof v === 'number'] *)
Definition is_number (v : value) : bool :=
  match v with VNum _ => true | _ => false end.

(** [Array.isArray(v)] *)
Definition isArray (v : value) : bool :=
  match v with VArr _ => true | _ => false end.

Fixpoint lookup (k : string) (fields : list (string * value)) : option value :=
  match fields with
  | [] => None
  | (k', v) :: rest => if String.eqb k k' then Some v else lookup k rest
  end.

(** [o.k], as object destructuring reads it for the keys the handlers use:
    an own property of an object, [undefined] on anything else. *)
Definition prop (k : string) (o : value) : value :=
  match o with
  | VObj fields => match lookup k fields with Some v => v | None => VUndefined end
  | _ => VUndefined
  end.

(** The key is absent from the body. *)
Definition missing (k : string) (o : value) : Prop :=
  match o with
  | VObj fields => lookup k fields = None
  | _ => True
  end.

End JS.
Import JS.

(* ===================================================================== *)
(** ** Strings: split and trim *)
(* ===================================================================== *)

Module Str.

(** [s.split(sep)] for a one-character separator. *)
Fixpoint split (sep : ascii) (s : string) : list string :=
  match s with
  | EmptyString => [EmptyString]
  | String c rest =>
      if Ascii.eqb c sep then EmptyString :: split sep rest
      else match split sep rest with
           | piece :: pieces => String c piece :: pieces
           | [] => [String c EmptyString]
           end
  end.

(** [pieces.join(sep)] *)
Fixpoint join (sep : ascii) (pieces : list string) : string :=
  match pieces with
  | [] => EmptyString
  | [p] => p
  | p :: rest => p ++ String sep (join sep rest)
  end.

(** WhiteSpace and LineTerminator code units below 256: TAB, LF, VT, FF,
    CR, SP and NBSP. *)
Definition is_space (c : ascii) : bool :=
  let n := nat_of_ascii c in
  ((9 <=? n) && (n <=? 13) || (n =? 32) || (n =? 160))%nat.

Fixpoint trimStart (s : string) : string :=
  match s with
  | EmptyString => EmptyString
  | String c rest => if is_space c then trimStart rest else s
  end.

Fixpoint trimEnd (s : string) : string :=
  match s with
  | EmptyString => EmptyString
  | String c rest =>
      match trimEnd rest with
      | EmptyString => if is_space c then EmptyString else String c EmptyString
      | kept => String c kept
      end
  end.

(** [s.trim()] *)
Definition trim (s : string) : string := trimEnd (trimStart s).

Fixpoint all (p : ascii -> bool) (s : string) : bool :=
  match s with
  | EmptyString => true
  | String c rest => p c && all p rest
  end.

Fixpoint map (f : ascii -> ascii) (s : string) : string :=
  match s with
  | EmptyString => EmptyString
  | String c rest => String (f c) (map f rest)
  end.

Definition nonempty (s : string) : bool := negb (String.eqb s "").

Definition first (s : string) : option ascii :=
  match s with EmptyString => None | String c _ => Some c end.

Fixpoint last (s : string) : option ascii :=
  match s with
  | EmptyString => None
  | String c EmptyString => Some c
  | String _ rest => last rest
  end.

(** How many code units of [s] are [c]. *)
Fixpoint count (c : ascii) (s : string) : nat :=
  match s with
  | EmptyString => 0%nat
  | String x rest => ((if Ascii.eqb x c then 1 else 0) + count c rest)%nat
  end.

End Str.

(* ===================================================================== *)
(** ** CORS allow-list (index.js, lines 10 and 33-39) *)
(* ===================================================================== *)

Module Cors.

(** [process.env.CLIENT_URL || 'http://localhost:5173'] *)
Definition CLIENT_URL (env_CLIENT_URL : option string) : string :=
  match env_CLIENT_URL with
  | Some s => if Str.nonempty s then s else "http://localhost:5173"
  | None => "http://localhost:5173"
  end.

Definition default_origins : list string :=
  ["http://localhost:3000"; "http://localhost:5173"].

(** [(CLIENT_URL || '').split(',').map((o) => o.trim()).filter(Boolean)] *)
Definition configured (client_url : string) : list string :=
  filter Str.nonempty
    (List.map Str.trim
       (Str.split ","%char (if Str.nonempty client_url then client_url else ""))).

(** The array after the [if (allowedOrigins.length === 0) push(...)]. *)
Definition allowedOrigins (client_url : string) : list string :=
  let origins := configured client_url in
  if (List.length origins =? 0)%nat then origins ++ default_origins else origins.

(** The allow-list in the spec's words: the entries of the comma-separated
    string, each without surrounding white space, the empty ones left out;
    the default pair when no entry is left. *)
Inductive entry_of (client_url : string) (o : string) : Prop :=
| entry_intro (piece : string) :
    In piece (Str.split ","%char client_url) ->
    o = Str.trim piece ->
    o <> "" ->
    entry_of client_url o.

End Cors.

(* ===================================================================== *)
(** ** Configuration (index.js, lines 9-21 and 265) *)
(* ===================================================================== *)

Module Config.

(** The variables of [process.env] the file reads: each is a string or
    [undefined]. *)
Record ProcessEnv : Type := mkProcessEnv {
  PORT : option string;
  CLIENT_URL : option string;
  DB_NAME : option string;
  MONGO_CLUSTER : option string;
  MONGODB_URI : option string;
  DB_USER : option string;
  DB_PASS : option string;
  VERCEL : option string
}.

(** [v || d] for a variable [v] and a string [d]. *)
Definition or_string (v : option string) (d : string) : string :=
  match v with
  | Some s => if Str.nonempty s then s else d
  | None => d
  end.

(** A variable inside a template literal: [undefined] prints as
    "undefined". *)
Definition interpolate (v : option string) : string :=
  match v with
  | Some s => s
  | None => "undefined"
  end.

(** [process.env.PORT || 5000]: the string of the variable, or the number. *)
Definition port (env : ProcessEnv) : string + nat :=
  match PORT env with
  | Some s => if Str.nonempty s then inl s else inr 5000%nat
  | None => inr 5000%nat
  end.

Definition db_name (env : ProcessEnv) : string :=
  or_string (DB_NAME env) "chef".

Definition mongo_cluster (env : ProcessEnv) : string :=
  or_string (MONGO_CLUSTER env) "cluster0.fab0szf.mongodb.net".

(** Lines 15-17. *)
Definition mongodb_uri (env : ProcessEnv) : string :=
  or_string (MONGODB_URI env)
    ("mongodb+srv://" ++ interpolate (DB_USER env) ++ ":"
       ++ interpolate (DB_PASS env) ++ "@" ++ mongo_cluster env
       ++ "/?appName=Cluster0").

(** Whether the warning of lines 19-21 is printed: [!MONGODB_URI]. *)
Definition warns (env : ProcessEnv) : bool :=
  negb (Str.nonempty (mongodb_uri env)).

(** The allow-list the process computes from its environment. *)
Definition allowed_origins (env : ProcessEnv) : list string :=
  Cors.allowedOrigins (Cors.CLIENT_URL (CLIENT_URL env)).

(** Line 265: [process.env.VERCEL !== '1'], whether [start()] is run. *)
Definition starts_server (env : ProcessEnv) : bool :=
  match VERCEL env with
  | Some s => negb (String.eqb s "1")
  | None => true
  end.

End Config.

(* ===================================================================== *)
(** ** ObjectId *)
(* ===================================================================== *)

Module ObjectId.

(** An identifier is kept as its 24 lower-case hexadecimal digits, the
    form [toHexString] prints. *)
Definition t := string.

Definition is_digit (c : ascii) : bool :=
  let n := nat_of_ascii c in ((48 <=? n) && (n <=? 57))%nat.
Definition is_lower_hex (c : ascii) : bool :=
  let n := nat_of_ascii c in is_digit c || ((97 <=? n) && (n <=? 102))%nat.
Definition is_upper_hex (c : ascii) : bool :=
  let n := nat_of_ascii c in ((65 <=? n) && (n <=? 70))%nat.
Definition is_hex (c : ascii) : bool := is_lower_hex c || is_upper_hex c.

Definition lower (c : ascii) : ascii :=
  if is_upper_hex c then ascii_of_nat (nat_of_ascii c + 32) else c.

(** [ObjectId.isValid(id)] on a string (every route parameter is one):
    24 hexadecimal digits, as the driver's [bson] checks it. *)
Definition isValid (id : string) : bool :=
  (String.length id =? 24)%nat && Str.all is_hex id.

(** [new ObjectId(id)]: the bytes the digits denote, or a thrown
    [BSONError]. *)
Definition new (id : string) : option t :=
  if isValid id then Some (Str.map lower id) else None.

Definition toHexString (oid : t) : string := oid.

(** A well-formed identifier: 12 bytes, printed in lower case. *)
Definition wf (oid : t) : bool :=
  (String.length oid =? 24)%nat && Str.all is_lower_hex oid.

Definition eqb (a b : t) : bool := String.eqb a b.

End ObjectId.

(* ===================================================================== *)
(** ** Documents *)
(* ===================================================================== *)

(** The object literal [user] of POST /api/users. *)
Module User.
Record t : Type := mk {
  email : value;
  name : value;
  role : value;
  createdAt : Z
}.
End User.

(** The object literal [doc] of POST /api/items. *)
Module Item.
Record t : Type := mk {
  name : value;
  description : value;
  price : value;
  category : value;
  image : value;
  badge : value;
  badgeColor : value;
  isLarge : bool;
  tags : value;
  createdAt : Z
}.

(** The property [k] of the JSON object [res.json] prints for an item, for
    the keys a request body can carry. *)
Definition field (k : string) (i : t) : value :=
  if String.eqb k "name" then name i
  else if String.eqb k "description" then description i
  else if String.eqb k "price" then price i
  else if String.eqb k "category" then category i
  else if String.eqb k "image" then image i
  else if String.eqb k "badge" then badge i
  else if String.eqb k "badgeColor" then badgeColor i
  else if String.eqb k "isLarge" then VBool (isLarge i)
  else if String.eqb k "tags" then tags i
  else VUndefined.
End Item.

(** A document as the collection holds it and as [{ _id, ...doc }] spells
    it: the fields of the literal under the identifier of the insert. *)
Record Stored (A : Type) : Type := mkStored {
  _id : ObjectId.t;
  doc : A
}.
Arguments mkStored {A} _ _.
Arguments _id {A} _.
Arguments doc {A} _.

(** Both kinds of document carry the [createdAt] the lists are sorted by
    (milliseconds since the epoch, as a [Date] holds them). *)
Class Document (A : Type) : Type := createdAt_of : A -> Z.
#[export] Instance User_Document : Document User.t := User.createdAt.
#[export] Instance Item_Document : Document Item.t := Item.createdAt.

(* ===================================================================== *)
(** ** Server state, environment and the request monad *)
(* ===================================================================== *)

(** The calls the process makes to the driver. *)
Inductive DriverCall : Type :=
| CallConnect
| CallPing
| CallFindOne (collection : string)
| CallInsertOne (collection : string)
| CallDeleteOne (collection : string)
| CallFind (collection : string).

(** [isConnected] is the module-level flag of index.js; [users] and [items]
    are the two collections of the deployment; [calls] lists the driver
    calls made so far, oldest first. *)
Record Server : Type := mkServer {
  isConnected : bool;
  users : list (Stored User.t);
  items : list (Stored Item.t);
  calls : list DriverCall
}.

(** What a request meets outside the process: the clock read by
    [new Date()], the identifier the driver generates should the request
    insert, and whether the deployment answers. *)
Record Env : Type := mkEnv {
  now : Z;
  generatedId : ObjectId.t;
  reachable : bool
}.

Inductive Error : Type :=
| MongoNetworkError
| MongoServerError (code : Z)
| BSONError.

Inductive Result (A : Type) : Type :=
| Ok (a : A)
| Throw (e : Error).
Arguments Ok {A} _.
Arguments Throw {A} _.

(** An async function body: it reads the environment, updates the server
    state and either returns or throws; what it did to the state before
    throwing stays done. *)
Definition M (A : Type) : Type := Env -> Server -> Result A * Server.

Definition ret {A} (a : A) : M A := fun _ s => (Ok a, s).

Definition throw {A} (e : Error) : M A := fun _ s => (Throw e, s).

Definition bind {A B} (m : M A) (k : A -> M B) : M B :=
  fun e s =>
    match m e s with
    | (Ok a, s') => k a e s'
    | (Throw err, s') => (Throw err, s')
    end.

Declare Scope request_scope.
Delimit Scope request_scope with request.
Notation "x <- m ;; k" := (bind m (fun x => k))
  (at level 61, m at next level, right associativity) : request_scope.
Notation "m ;; k" := (bind m (fun _ => k))
  (at level 61, right associativity) : request_scope.
Local Open Scope request_scope.

Definition ask : M Env := fun e s => (Ok e, s).
Definition get : M Server := fun _ s => (Ok s, s).
Definition put (s : Server) : M unit := fun _ _ => (Ok tt, s).

(** [new Date()] *)
Definition new_Date : M Z := e <- ask ;; ret (now e).

(* ===================================================================== *)
(** ** The driver *)
(* ===================================================================== *)

Inductive Collection : Type -> Type :=
| UsersCollection : Collection User.t
| ItemsCollection : Collection Item.t.

Definition collectionName {A} (c : Collection A) : string :=
  match c with
  | UsersCollection => "users"
  | ItemsCollection => "items"
  end.

Definition docs {A} (c : Collection A) (s : Server) : list (Stored A) :=
  match c in Collection T return list (Stored T) with
  | UsersCollection => users s
  | ItemsCollection => items s
  end.

Definition set_docs {A} (c : Collection A) : list (Stored A) -> Server -> Server :=
  match c in Collection T return list (Stored T) -> Server -> Server with
  | UsersCollection => fun l s =>
      mkServer (isConnected s) l (items s) (calls s)
  | ItemsCollection => fun l s =>
      mkServer (isConnected s) (users s) l (calls s)
  end.

Definition log_call (c : DriverCall) (s : Server) : Server :=
  mkServer (isConnected s) (users s) (items s) (calls s ++ [c]).

(** Every driver call is logged; it throws when the deployment cannot be
    reached. *)
Definition call (c : DriverCall) : M unit :=
  fun e s =>
    if reachable e then (Ok tt, log_call c s)
    else (Throw MongoNetworkError, log_call c s).

(** [client.connect()] *)
Definition client_connect : M unit := call CallConnect.

(** [client.db('admin').command({ ping: 1 })] *)
Definition client_ping : M unit := call CallPing.

(** A query document, compiled: [None] when the server rejects it. *)
Definition Filter (A : Type) : Type := option (Stored A -> bool).

(** [{ _id: oid }] *)
Definition by_id {A} (oid : ObjectId.t) : Filter A :=
  Some (fun d => ObjectId.eqb (_id d) oid).

(** The first element satisfying [p] is taken out. *)
Fixpoint remove_first {A} (p : A -> bool) (l : list A) : list A :=
  match l with
  | [] => []
  | x :: rest => if p x then rest else x :: remove_first p rest
  end.

(** [collection.findOne(filter)]: the first match in natural order, [null]
    ([None]) when there is none. *)
Definition findOne {A} (c : Collection A) (f : Filter A) : M (option (Stored A)) :=
  call (CallFindOne (collectionName c)) ;;
  match f with
  | None => throw (MongoServerError 2)
  | Some p => s <- get ;; ret (find p (docs c s))
  end.

(** [collection.insertOne(d)]: the driver gives the document its [_id]; the
    unique index on [_id] refuses an identifier the collection already has
    (error E11000).  The result is [insertedId]. *)
Definition insertOne {A} (c : Collection A) (d : A) : M ObjectId.t :=
  call (CallInsertOne (collectionName c)) ;;
  e <- ask ;;
  s <- get ;;
  let oid := generatedId e in
  if existsb (fun x => ObjectId.eqb (_id x) oid) (docs c s)
  then throw (MongoServerError 11000)
  else put (set_docs c (docs c s ++ [mkStored oid d]) s) ;; ret oid.

(** [collection.deleteOne(filter)]: the first match is removed.  The result
    is [deletedCount]. *)
Definition deleteOne {A} (c : Collection A) (f : Filter A) : M nat :=
  call (CallDeleteOne (collectionName c)) ;;
  match f with
  | None => throw (MongoServerError 2)
  | Some p =>
      s <- get ;;
      match find p (docs c s) with
      | None => ret 0%nat
      | Some _ => put (set_docs c (remove_first p (docs c s)) s) ;; ret 1%nat
      end
  end.

(** Descending order on [createdAt]; insertion keeps documents of equal
    [createdAt] in natural order (the server promises no order among
    them). *)
Fixpoint insert_desc {A} `{Document A} (d : Stored A) (l : list (Stored A))
  : list (Stored A) :=
  match l with
  | [] => [d]
  | x :: rest =>
      if createdAt_of (doc x) <=? createdAt_of (doc d)
      then d :: x :: rest
      else x :: insert_desc d rest
  end.

Definition sort_desc {A} `{Document A} (l : list (Stored A)) : list (Stored A) :=
  fold_right insert_desc [] l.

(** The cursor [find({})] returns, as [sort] and [limit] configure it. *)
Record Cursor (A : Type) : Type := mkCursor {
  cursor_collection : Collection A;
  cursor_sort_createdAt_desc : bool;
  cursor_limit : option nat
}.
Arguments mkCursor {A} _ _ _.
Arguments cursor_collection {A} _.
Arguments cursor_sort_createdAt_desc {A} _.
Arguments cursor_limit {A} _.

(** [collection.find({})] *)
Definition find_all {A} (c : Collection A) : Cursor A := mkCursor c false None.

(** [cursor.sort({ createdAt: -1 })] *)
Definition sort_createdAt_desc {A} (cur : Cursor A) : Cursor A :=
  mkCursor (cursor_collection cur) true (cursor_limit cur).

(** [cursor.limit(n)] for a positive [n] *)
Definition limit {A} (n : nat) (cur : Cursor A) : Cursor A :=
  mkCursor (cursor_collection cur) (cursor_sort_createdAt_desc cur) (Some n).

(** [cursor.toArray()]: the query runs here. *)
Definition toArray {A} `{Document A} (cur : Cursor A) : M (list (Stored A)) :=
  call (CallFind (collectionName (cursor_collection cur))) ;;
  s <- get ;;
  let all := docs (cursor_collection cur) s in
  let sorted := if cursor_sort_createdAt_desc cur then sort_desc all else all in
  ret (match cursor_limit cur with
       | Some n => firstn n sorted
       | None => sorted
       end).

(* ===================================================================== *)
(** ** Responses and requests *)
(* ===================================================================== *)

(** The JSON bodies the handlers send. *)
Inductive Body : Type :=
| JError (error : string)
| JUser (user : Stored User.t)
| JUsers (users : list (Stored User.t))
| JItem (item : Stored Item.t)
| JItems (items : list (Stored Item.t))
| JDeleted (message : string) (deletedId : string)
| JHealth (status : string) (timestamp : Z)
| Text (text : string).

Record Response : Type := mkResponse {
  status : nat;
  body : Body
}.

(** [res.status(code).json(b)] *)
Definition res_status_json (code : nat) (b : Body) : Response := mkResponse code b.

(** [res.json(b)] *)
Definition res_json (b : Body) : Response := mkResponse 200 b.

(** [res.send(text)] *)
Definition res_send (text : string) : Response := mkResponse 200 (Text text).

Inductive Request : Type :=
| GET_root
| GET_health
| POST_users (req_body : value)
| GET_users
| GET_user (id : string)
| DELETE_user (id : string)
| GET_items
| GET_item (id : string)
| DELETE_item (id : string)
| POST_items (req_body : value).

(** How [start()] ends: listening, or [process.exit(1)]. *)
Inductive Started : Type :=
| Listening
| Exit (code : nat).

(** A deployment that evaluates no query operator: every query document
    other than a plain string comparison is refused. *)
Definition no_operators : value -> option (value -> bool) := fun _ => None.

(* ===================================================================== *)
(** ** Sample data *)
(* ===================================================================== *)

Module Sample.

Definition oid1 : ObjectId.t := "507f1f77bcf86cd799439011".
Definition oid2 : ObjectId.t := "507f191e810c19729de860ea".
Definition oid3 : ObjectId.t := "65a1b2c3d4e5f60718293a4b".

(** Two moments at which the deployment answers, and one at which it does
    not. *)
Definition env1 : Env := mkEnv 1700000000000 oid2 true.
Definition env2 : Env := mkEnv 1700000060000 oid3 true.
Definition offline : Env := mkEnv 1700000120000 oid3 false.

Definition bob : Stored User.t :=
  mkStored oid1 (User.mk (VStr "bob@example.com") (VStr "Bob") (VStr "chef") 1600000000000).

Definition soup : Stored Item.t :=
  mkStored oid1
    (Item.mk (VStr "Soup") (VStr "Of the day") (VNum (4 # 1)) (VStr "Starters")
       (VStr "") VNull VNull false (VArr [VStr "hot"]) 1600000000000).

(** A process that has not served a request yet, over a deployment holding
    one user and one item. *)
Definition cold : Server := mkServer false [bob] [soup] [].

(** The same process once connected. *)
Definition warm : Server := mkServer true [bob] [soup] [CallConnect].

Definition alice : value :=
  VObj [("email", VStr "alice@example.com"); ("name", VStr "Alice")].

Definition alice_again : value :=
  VObj [("email", VStr "alice@example.com"); ("name", VStr "Alice B.");
        ("role", VStr "admin")].

(** A valid item-creation body with a [category] that is falsy, an
    [isLarge] that is not a boolean, a [tags] that is not an array and a
    property the handler does not read. *)
Definition loose : value :=
  VObj [("name", VStr "Tacos"); ("description", VStr "Corn tortilla");
        ("price", VNum (17 # 2)); ("category", VStr "");
        ("isLarge", VNum (1 # 1)); ("tags", VStr "spicy");
        ("calories", VNum (200 # 1))].


(** A body valid for both create routes, every optional field present and
    falsy. *)
Definition falsy : value :=
  VObj [("email", VStr "carol@example.com"); ("name", VStr "Carol");
        ("role", VStr ""); ("description", VStr "All defaults");
        ("price", VNum (0 # 1)); ("category", VStr ""); ("image", VNull);
        ("badge", VBool false); ("badgeColor", VNum (0 # 1))].

(** A body with a name and nothing else. *)
Definition name_only : value := VObj [("name", VStr "Tacos")].

(** [n] items created one millisecond apart, oldest first. *)
Definition menu (n : nat) : list (Stored Item.t) :=
  List.map
    (fun k => mkStored oid1
                (Item.mk (VStr "Dish") (VStr "Plain") (VNum (1 # 1))
                   (VStr "Uncategorized") (VStr "") VNull VNull false (VArr [])
                   (Z.of_nat k)))
    (seq 0 n).

(** The [createdAt] of the items of a list response. *)
Definition createdAts (r : Response) : list Z :=
  match body r with
  | JItems l => List.map (fun i => Item.createdAt (doc i)) l
  | _ => []
  end.

(** A process environment with nothing set, and one with an allow-list. *)
Definition bare : Config.ProcessEnv :=
  Config.mkProcessEnv None None None None None None None None.

Definition deployed : Config.ProcessEnv :=
  Config.mkProcessEnv None
    (Some " https://chef.example.com , ,http://localhost:3000")
    None None None (Some "chef") (Some "secret") (Some "1").

(** Two requests for the same email, then a list, a bad id and a delete. *)
Definition session : list (Request * Env) :=
  [(POST_users alice, env1);
   (POST_users alice_again, env2);
   (GET_users, offline);
   (GET_item "nope", env2);
   (DELETE_user "507f1f77bcf86cd799439011", env2)].

End Sample.

(* ===================================================================== *)
(** ** index.js *)
(* ===================================================================== *)

Section Api.

(** How the server evaluates a query condition that is not a string:
    [None] when it refuses the query, otherwise the test applied to the
    field.  The server is not part of the repository and the handlers
    put no restriction on the [email] they query with, so this is left
    open. *)
Variable server_match : value -> option (value -> bool).

(** A string condition [s] matches a field that is the string [s] or an
    array with the element [s]. *)
Definition string_matches (s : string) (field : value) : bool :=
  match field with
  | VStr t => String.eqb s t
  | VArr xs => existsb (fun x => match x with VStr t => String.eqb s t | _ => false end) xs
  | _ => false
  end.

(** [{ email }] *)
Definition by_email (email : value) : Filter User.t :=
  match email with
  | VStr s => Some (fun d => string_matches s (User.email (doc d)))
  | _ => option_map (fun p d => p (User.email (doc d))) (server_match email)
  end.

(** [new ObjectId(id)] inside an async body. *)
Definition new_ObjectId (id : string) : M ObjectId.t :=
  match ObjectId.new id with
  | Some oid => ret oid
  | None => throw BSONError
  end.

(** [isConnected = b] *)
Definition assign_isConnected (b : bool) : M unit :=
  fun _ s => (Ok tt, mkServer b (users s) (items s) (calls s)).

(** index.js, lines 58-66. *)
Definition connectToMongo : M unit :=
  s <- get ;;
  if negb (isConnected s) then
    client_connect ;;
    assign_isConnected true
  else ret tt.

Definition getItemsCollection : M (Collection Item.t) :=
  connectToMongo ;; ret ItemsCollection.

Definition getUsersCollection : M (Collection User.t) :=
  connectToMongo ;; ret UsersCollection.

(** [try { ... } catch (err) { next(err) }] followed by the global error
    handler (lines 259-262). *)
Definition handler (body : M Response) : Env -> Server -> Response * Server :=
  fun e s =>
    match body e s with
    | (Ok r, s') => (r, s')
    | (Throw _, s') => (res_status_json 500 (JError "Internal server error"), s')
    end.

(** GET / *)
Definition get_root : Env -> Server -> Response * Server :=
  fun _ s => (res_send "Chef API is running", s).

(** GET /api/health *)
Definition get_health : Env -> Server -> Response * Server :=
  fun e s => (res_json (JHealth "ok" (now e)), s).

(** POST /api/users (lines 89-116) *)
Definition post_users_body (req_body : value) : M Response :=
  let b := JS.or req_body (VObj []) in
  let email := prop "email" b in
  let name := prop "name" b in
  let role := prop "role" b in
  if negb (truthy email) || negb (truthy name) then
    ret (res_status_json 400 (JError "email and name are required"))
  else
    usersCollection <- getUsersCollection ;;
    existingUser <- findOne usersCollection (by_email email) ;;
    match existingUser with
    | Some _ => ret (res_status_json 409 (JError "User already exists"))
    | None =>
        createdAt <- new_Date ;;
        let user := User.mk email name (JS.or role (VStr "staff")) createdAt in
        insertedId <- insertOne usersCollection user ;;
        ret (res_status_json 201 (JUser (mkStored insertedId user)))
    end.

Definition post_users (req_body : value) := handler (post_users_body req_body).

(** GET /api/users (lines 119-130) *)
Definition get_users_body : M Response :=
  usersCollection <- getUsersCollection ;;
  users <- toArray (sort_createdAt_desc (find_all usersCollection)) ;;
  ret (res_json (JUsers users)).

Definition get_users := handler get_users_body.

(** GET /api/users/:id (lines 133-150) *)
Definition get_user_body (id : string) : M Response :=
  if negb (ObjectId.isValid id) then
    ret (res_status_json 400 (JError "Invalid user id"))
  else
    usersCollection <- getUsersCollection ;;
    oid <- new_ObjectId id ;;
    user <- findOne usersCollection (by_id oid) ;;
    match user with
    | None => ret (res_status_json 404 (JError "User not found"))
    | Some u => ret (res_json (JUser u))
    end.

Definition get_user (id : string) := handler (get_user_body id).

(** DELETE /api/users/:id (lines 153-170) *)
Definition delete_user_body (id : string) : M Response :=
  if negb (ObjectId.isValid id) then
    ret (res_status_json 400 (JError "Invalid user id"))
  else
    usersCollection <- getUsersCollection ;;
    oid <- new_ObjectId id ;;
    deletedCount <- deleteOne usersCollection (by_id oid) ;;
    if (deletedCount =? 0)%nat then
      ret (res_status_json 404 (JError "User not found"))
    else
      ret (res_json (JDeleted "User deleted successfully" id)).

Definition delete_user (id : string) := handler (delete_user_body id).

(** GET /api/items (lines 173-185) *)
Definition get_items_body : M Response :=
  itemsCollection <- getItemsCollection ;;
  items <- toArray (limit 100 (sort_createdAt_desc (find_all itemsCollection))) ;;
  ret (res_json (JItems items)).

Definition get_items := handler get_items_body.

(** GET /api/items/:id (lines 188-205) *)
Definition get_item_body (id : string) : M Response :=
  if negb (ObjectId.isValid id) then
    ret (res_status_json 400 (JError "Invalid item id"))
  else
    itemsCollection <- getItemsCollection ;;
    oid <- new_ObjectId id ;;
    item <- findOne itemsCollection (by_id oid) ;;
    match item with
    | None => ret (res_status_json 404 (JError "Item not found"))
    | Some i => ret (res_json (JItem i))
    end.

Definition get_item (id : string) := handler (get_item_body id).

(** DELETE /api/items/:id (lines 208-225) *)
Definition delete_item_body (id : string) : M Response :=
  if negb (ObjectId.isValid id) then
    ret (res_status_json 400 (JError "Invalid item id"))
  else
    itemsCollection <- getItemsCollection ;;
    oid <- new_ObjectId id ;;
    deletedCount <- deleteOne itemsCollection (by_id oid) ;;
    if (deletedCount =? 0)%nat then
      ret (res_status_json 404 (JError "Item not found"))
    else
      ret (res_json (JDeleted "Item deleted successfully" id)).

Definition delete_item (id : string) := handler (delete_item_body id).

(** POST /api/items (lines 228-255) *)
Definition post_items_body (req_body : value) : M Response :=
  let b := JS.or req_body (VObj []) in
  let name := prop "name" b in
  let description := prop "description" b in
  let price := prop "price" b in
  let category := prop "category" b in
  let image := prop "image" b in
  let badge := prop "badge" b in
  let badgeColor := prop "badgeColor" b in
  let isLarge := prop "isLarge" b in
  let tags := prop "tags" b in
  if negb (truthy name) || negb (truthy description) || negb (is_number price) then
    ret (res_status_json 400 (JError "name, description, and numeric price are required"))
  else
    createdAt <- new_Date ;;
    let doc :=
      Item.mk name description price
        (JS.or category (VStr "Uncategorized"))
        (JS.or image (VStr ""))
        (JS.or badge VNull)
        (JS.or badgeColor VNull)
        (truthy isLarge)
        (if isArray tags then tags else VArr [])
        createdAt in
    itemsCollection <- getItemsCollection ;;
    insertedId <- insertOne itemsCollection doc ;;
    ret (res_status_json 201 (JItem (mkStored insertedId doc))).

Definition post_items (req_body : value) := handler (post_items_body req_body).

(** Route dispatch. *)
Definition handle (r : Request) : Env -> Server -> Response * Server :=
  match r with
  | GET_root => get_root
  | GET_health => get_health
  | POST_users b => post_users b
  | GET_users => get_users
  | GET_user id => get_user id
  | DELETE_user id => delete_user id
  | GET_items => get_items
  | GET_item id => get_item id
  | DELETE_item id => delete_item id
  | POST_items b => post_items b
  end.

(** [start()] (lines 266-279), run when the process is not a serverless
    function: it connects on the client directly, not through
    [connectToMongo]. *)
Definition start : Env -> Server -> Started * Server :=
  fun e s =>
    match (client_connect ;; client_ping) e s with
    | (Ok _, s') => (Listening, s')
    | (Throw _, s') => (Exit 1, s')
    end.

(** Requests served one after the other, each in its own environment; the
    states the server goes through, the starting one first. *)
Fixpoint states (trace : list (Request * Env)) (s : Server) : list Server :=
  match trace with
  | [] => [s]
  | (r, e) :: rest => s :: states rest (snd (handle r e s))
  end.

(** How often the flag goes from [false] to [true] along a list of states. *)
Fixpoint connections (l : list Server) : nat :=
  match l with
  | a :: ((b :: _) as rest) =>
      ((if negb (isConnected a) && isConnected b then 1 else 0) + connections rest)%nat
  | _ => 0%nat
  end.

(** The state a process starts in over a given deployment:
    [let isConnected = false]. *)
Definition boot (us : list (Stored User.t)) (is_ : list (Stored Item.t)) : Server :=
  mkServer false us is_ [].

(** The unique index on [_id] in both collections. *)
Definition unique_ids (s : Server) : Prop :=
  NoDup (List.map _id (users s)) /\ NoDup (List.map _id (items s)).

(** The state [connectToMongo] leaves when the deployment answers. *)
Definition after_connect (s : Server) : Server :=
  if isConnected s then s
  else mkServer true (users s) (items s) (calls s ++ [CallConnect]).

(** [respects R m]: whatever the environment, and whether [m] returns or
    throws, the state it leaves is [R]-related to the state it started in. *)
Definition respects (R : Server -> Server -> Prop) {A} (m : M A) : Prop :=
  forall e s, R s (snd (m e s)).

(** [a] may come before [b] in a list sorted by descending [createdAt]. *)
Definition newer_first {A} `{Document A} (a b : Stored A) : Prop :=
  createdAt_of (doc b) <= createdAt_of (doc a).

(** The user's [email] is the string [em]. *)
Definition has_email (em : string) (u : Stored User.t) : bool :=
  match User.email (doc u) with
  | VStr t => String.eqb em t
  | _ => false
  end.

(** An item echoes a body: every property the body carries is a property
    of the item, with the same value. *)
Definition echoes_submitted (b : value) (i : Item.t) : Prop :=
  forall k, prop k b <> VUndefined -> Item.field k i = prop k b.

(** A body is a valid item-creation payload. *)
Definition valid_item_payload (b : value) : Prop :=
  truthy (prop "name" b) = true
  /\ truthy (prop "description" b) = true
  /\ is_number (prop "price" b) = true.

(** The body of the spec's scenario. *)
Definition tacos : value :=
  VObj [("name", VStr "Tacos");
        ("description", VStr "Corn tortilla");
        ("price", VNum (17 # 2))].

(** The answer of the global error handler. *)
Definition internal_server_error : Response :=
  res_status_json 500 (JError "Internal server error").

(** The request passes the checks its handler makes before it goes to the
    store. *)
Definition accepted (r : Request) : bool :=
  match r with
  | GET_root | GET_health | GET_users | GET_items => true
  | POST_users b => truthy (prop "email" b) && truthy (prop "name" b)
  | POST_items b =>
      truthy (prop "name" b) && truthy (prop "description" b)
      && is_number (prop "price" b)
  | GET_user id | DELETE_user id | GET_item id | DELETE_item id =>
      ObjectId.isValid id
  end.

(** The route goes to the store. *)
Definition uses_store (r : Request) : bool :=
  match r with
  | GET_root | GET_health => false
  | _ => true
  end.

(** The first call an accepted request makes on its collection. *)
Definition first_call (r : Request) : DriverCall :=
  match r with
  | POST_users _ | GET_user _ => CallFindOne "users"
  | GET_users => CallFind "users"
  | DELETE_user _ => CallDeleteOne "users"
  | POST_items _ => CallInsertOne "items"
  | GET_items => CallFind "items"
  | GET_item _ => CallFindOne "items"
  | DELETE_item _ => CallDeleteOne "items"
  | GET_root | GET_health => CallPing
  end.

(** The message of the 400 a handler answers a request it does not
    accept. *)
Definition rejection (r : Request) : string :=
  match r with
  | POST_users _ => "email and name are required"
  | POST_items _ => "name, description, and numeric price are required"
  | GET_user _ | DELETE_user _ => "Invalid user id"
  | GET_item _ | DELETE_item _ => "Invalid item id"
  | GET_root | GET_health | GET_users | GET_items => ""
  end.

(** The statuses a route can answer. *)
Definition statuses (r : Request) : list nat :=
  match r with
  | GET_root | GET_health => [200]
  | GET_users | GET_items => [200; 500]
  | GET_user _ | GET_item _ | DELETE_user _ | DELETE_item _ => [200; 400; 404; 500]
  | POST_users _ => [201; 400; 409; 500]
  | POST_items _ => [201; 400; 500]
  end%nat.

(** The emails of the users that are strings, in natural order. *)
Fixpoint string_emails (l : list (Stored User.t)) : list string :=
  match l with
  | [] => []
  | u :: rest =>
      match User.email (doc u) with
      | VStr em => em :: string_emails rest
      | _ => string_emails rest
      end
  end.

(* ===================================================================== *)
(** ** Properties of the JavaScript primitives *)
(* ===================================================================== *)

Lemma prop_or_empty (k : string) (b : value) :
  prop k (JS.or b (VObj [])) = prop k b.
Proof.
  unfold JS.or. destruct (truthy b) eqn:T; [reflexivity|].
  destruct b; simpl in *; try reflexivity; discriminate.
Qed.

Lemma missing_prop (k : string) (b : value) :
  JS.missing k b -> prop k b = VUndefined.
Proof.
  destruct b; simpl; try reflexivity. intros ->. reflexivity.
Qed.

Lemma missing_falsy (k : string) (b : value) :
  JS.missing k b -> truthy (prop k (JS.or b (VObj []))) = false.
Proof.
  intros H. rewrite prop_or_empty, (missing_prop _ _ H). reflexivity.
Qed.

Lemma or_truthy (a b : value) : truthy a = true -> JS.or a b = a.
Proof. unfold JS.or. intros ->. reflexivity. Qed.

Lemma or_falsy (a b : value) : truthy a = false -> JS.or a b = b.
Proof. unfold JS.or. intros ->. reflexivity. Qed.

(* ===================================================================== *)
(** ** Properties of split and trim *)
(* ===================================================================== *)

Lemma split_not_nil (sep : ascii) (s : string) : Str.split sep s <> [].
Proof.
  destruct s as [|c r]; simpl; [discriminate|].
  destruct (Ascii.eqb c sep); [discriminate|].
  destruct (Str.split sep r); discriminate.
Qed.

(** Joining the pieces with the separator gives the string back. *)
Lemma join_split (sep : ascii) (s : string) :
  Str.join sep (Str.split sep s) = s.
Proof.
  induction s as [|c r IH]; simpl; [reflexivity|].
  pose proof (split_not_nil sep r) as Hnil.
  destruct (Str.split sep r) as [|p ps] eqn:E; [congruence|].
  destruct (Ascii.eqb_spec c sep) as [->|Hne].
  - change (Str.join sep ("" :: p :: ps)) with ("" ++ String sep (Str.join sep (p :: ps))).
    rewrite IH. reflexivity.
  - destruct ps as [|q qs].
    + simpl in *. congruence.
    + change (Str.join sep (String c p :: q :: qs))
        with (String c (p ++ String sep (Str.join sep (q :: qs)))).
      change (Str.join sep (p :: q :: qs))
        with (p ++ String sep (Str.join sep (q :: qs))) in IH.
      rewrite IH. reflexivity.
Qed.

(** No piece contains the separator. *)
Lemma split_pieces_free (sep : ascii) (s : string) :
  Forall (fun p => Str.all (fun c => negb (Ascii.eqb c sep)) p = true)
         (Str.split sep s).
Proof.
  induction s as [|c r IH]; simpl.
  - constructor; [reflexivity|constructor].
  - destruct (Ascii.eqb c sep) eqn:E.
    + constructor; [reflexivity|exact IH].
    + destruct (Str.split sep r) as [|p ps].
      * constructor; [simpl; rewrite E; reflexivity|constructor].
      * inversion IH; subst. constructor; [simpl; rewrite E; assumption|assumption].
Qed.

Lemma trimStart_decompose (s : string) :
  exists l, s = l ++ Str.trimStart s /\ Str.all Str.is_space l = true.
Proof.
  induction s as [|c r [l [E A]]]; simpl.
  - exists ""; split; reflexivity.
  - destruct (Str.is_space c) eqn:W.
    + exists (String c l). split; [simpl; congruence|simpl; rewrite W; exact A].
    + exists "". split; reflexivity.
Qed.

Lemma trimStart_first (s : string) :
  match Str.first (Str.trimStart s) with
  | Some c => Str.is_space c = false
  | None => True
  end.
Proof.
  induction s as [|c r IH]; simpl; [exact I|].
  destruct (Str.is_space c) eqn:W; [exact IH|simpl; exact W].
Qed.

Lemma trimEnd_decompose (s : string) :
  exists r, s = Str.trimEnd s ++ r /\ Str.all Str.is_space r = true.
Proof.
  induction s as [|c t [r [E A]]]; simpl.
  - exists ""; split; reflexivity.
  - destruct (Str.trimEnd t) as [|k ks] eqn:T.
    + destruct (Str.is_space c) eqn:W.
      * exists (String c r). simpl in *. split; [congruence|rewrite W; exact A].
      * exists r. simpl in *. split; [congruence|exact A].
    + exists r. simpl in *. split; [congruence|exact A].
Qed.

Lemma trimEnd_last (s : string) :
  match Str.last (Str.trimEnd s) with
  | Some c => Str.is_space c = false
  | None => True
  end.
Proof.
  induction s as [|c t IH]; simpl; [exact I|].
  destruct (Str.trimEnd t) as [|k ks] eqn:T.
  - destruct (Str.is_space c) eqn:W; simpl; [exact I|exact W].
  - simpl in *. exact IH.
Qed.

Lemma trimEnd_first (s : string) :
  match Str.first s with
  | Some c => Str.is_space c = false -> Str.first (Str.trimEnd s) = Some c
  | None => True
  end.
Proof.
  destruct s as [|c t]; simpl; [exact I|].
  intros W. destruct (Str.trimEnd t); [rewrite W|]; reflexivity.
Qed.

Lemma trimEnd_empty_first (s : string) :
  Str.first s = None -> Str.trimEnd s = "".
Proof. destruct s; simpl; [reflexivity|discriminate]. Qed.

(** [trim] takes white space, and nothing else, off both ends. *)
Lemma trim_spec (s : string) :
  (exists l r, s = l ++ Str.trim s ++ r
               /\ Str.all Str.is_space l = true
               /\ Str.all Str.is_space r = true)
  /\ match Str.first (Str.trim s) with
     | Some c => Str.is_space c = false
     | None => True
     end
  /\ match Str.last (Str.trim s) with
     | Some c => Str.is_space c = false
     | None => True
     end.
Proof.
  unfold Str.trim. split; [|split].
  - destruct (trimStart_decompose s) as [l [El Al]].
    destruct (trimEnd_decompose (Str.trimStart s)) as [r [Er Ar]].
    exists l, r. split; [|split; assumption].
    rewrite <- Er. exact El.
  - pose proof (trimStart_first s) as F.
    pose proof (trimEnd_first (Str.trimStart s)) as G.
    destruct (Str.first (Str.trimStart s)) as [c|] eqn:E.
    + rewrite (G F). exact F.
    + rewrite (trimEnd_empty_first _ E). exact I.
  - apply trimEnd_last.
Qed.

(* ===================================================================== *)
(** ** Properties of ObjectId *)
(* ===================================================================== *)

Lemma lower_of_lower_hex (c : ascii) :
  ObjectId.is_lower_hex c = true -> ObjectId.lower c = c.
Proof.
  destruct c as [[] [] [] [] [] [] [] []]; intros H;
    try reflexivity; discriminate H.
Qed.

Lemma lower_hex_is_hex (c : ascii) :
  ObjectId.is_lower_hex c = true -> ObjectId.is_hex c = true.
Proof. unfold ObjectId.is_hex. intros ->. reflexivity. Qed.

Lemma lower_is_lower_hex (c : ascii) :
  ObjectId.is_hex c = true -> ObjectId.is_lower_hex (ObjectId.lower c) = true.
Proof.
  destruct c as [[] [] [] [] [] [] [] []]; intros H;
    try reflexivity; discriminate H.
Qed.

Lemma map_length (f : ascii -> ascii) (s : string) :
  String.length (Str.map f s) = String.length s.
Proof. induction s; simpl; congruence. Qed.

Lemma all_lower_hex_hex (s : string) :
  Str.all ObjectId.is_lower_hex s = true -> Str.all ObjectId.is_hex s = true.
Proof.
  induction s as [|c r IH]; simpl; [reflexivity|].
  intros H. apply andb_true_iff in H as [Hc Hr].
  rewrite (lower_hex_is_hex _ Hc), (IH Hr). reflexivity.
Qed.

Lemma map_lower_fix (s : string) :
  Str.all ObjectId.is_lower_hex s = true -> Str.map ObjectId.lower s = s.
Proof.
  induction s as [|c r IH]; simpl; [reflexivity|].
  intros H. apply andb_true_iff in H as [Hc Hr].
  rewrite (lower_of_lower_hex _ Hc), (IH Hr). reflexivity.
Qed.

Lemma map_lower_all (s : string) :
  Str.all ObjectId.is_hex s = true ->
  Str.all ObjectId.is_lower_hex (Str.map ObjectId.lower s) = true.
Proof.
  induction s as [|c r IH]; simpl; [reflexivity|].
  intros H. apply andb_true_iff in H as [Hc Hr].
  rewrite (lower_is_lower_hex _ Hc), (IH Hr). reflexivity.
Qed.

(** The hexadecimal form of a well-formed identifier is a valid route
    parameter and denotes that identifier. *)
Lemma new_toHexString (oid : ObjectId.t) :
  ObjectId.wf oid = true ->
  ObjectId.isValid (ObjectId.toHexString oid) = true
  /\ ObjectId.new (ObjectId.toHexString oid) = Some oid.
Proof.
  unfold ObjectId.wf, ObjectId.new, ObjectId.isValid, ObjectId.toHexString.
  intros H. apply andb_true_iff in H as [Hl Ha].
  rewrite Hl, (all_lower_hex_hex _ Ha), (map_lower_fix _ Ha). split; reflexivity.
Qed.

(** What the constructor builds is well formed. *)
Lemma new_wf (id : string) (oid : ObjectId.t) :
  ObjectId.new id = Some oid -> ObjectId.wf oid = true.
Proof.
  unfold ObjectId.new, ObjectId.isValid, ObjectId.wf.
  destruct (String.length id =? 24)%nat eqn:L; simpl; [|discriminate].
  destruct (Str.all ObjectId.is_hex id) eqn:A; [|discriminate].
  intros [= <-]. rewrite map_length, L, (map_lower_all _ A). reflexivity.
Qed.

Lemma new_of_valid (id : string) :
  ObjectId.isValid id = true -> ObjectId.new id = Some (Str.map ObjectId.lower id).
Proof. unfold ObjectId.new. intros ->. reflexivity. Qed.

(* ===================================================================== *)
(** ** Properties of the driver model *)
(* ===================================================================== *)

Lemma find_none_iff {A} (p : A -> bool) (l : list A) :
  find p l = None <-> existsb p l = false.
Proof.
  induction l as [|x r IH]; simpl; [tauto|].
  destruct (p x); simpl; [split; discriminate|exact IH].
Qed.

Lemma find_app_last {A} (p : A -> bool) (l : list A) (x : A) :
  existsb p l = false -> p x = true -> find p (l ++ [x])%list = Some x.
Proof.
  induction l as [|y r IH]; simpl; intros Hl Hx.
  - rewrite Hx. reflexivity.
  - apply orb_false_iff in Hl as [Hy Hr]. rewrite Hy. exact (IH Hr Hx).
Qed.

(** [remove_first] takes out the element [find] returns and nothing else. *)
Lemma remove_first_split {A} (p : A -> bool) (l : list A) (d : A) :
  find p l = Some d ->
  exists before after,
    l = (before ++ d :: after)%list
    /\ remove_first p l = (before ++ after)%list
    /\ existsb p before = false
    /\ p d = true.
Proof.
  induction l as [|x r IH]; simpl; [discriminate|].
  destruct (p x) eqn:Px.
  - intros [= <-]. exists [], r. repeat split; assumption.
  - intros F. destruct (IH F) as (b & a & E1 & E2 & E3 & E4).
    exists (x :: b), a. simpl. rewrite Px, E3. subst r. rewrite E2.
    repeat split; assumption.
Qed.

Lemma existsb_id_in {A} (oid : ObjectId.t) (l : list (Stored A)) :
  existsb (fun x => ObjectId.eqb (_id x) oid) l = true <-> In oid (List.map _id l).
Proof.
  rewrite existsb_exists, in_map_iff. unfold ObjectId.eqb.
  split; intros [x [H1 H2]]; exists x.
  - apply String.eqb_eq in H2. tauto.
  - split; [tauto|]. apply String.eqb_eq. tauto.
Qed.

Lemma existsb_id_not_in {A} (oid : ObjectId.t) (l : list (Stored A)) :
  existsb (fun x => ObjectId.eqb (_id x) oid) l = false <-> ~ In oid (List.map _id l).
Proof.
  rewrite <- existsb_id_in. destruct (existsb _ l); split; congruence.
Qed.

(** Under the unique index, once the match is removed nothing matches. *)
Lemma remove_first_unique {A} (oid : ObjectId.t) (l : list (Stored A)) :
  NoDup (List.map _id l) ->
  existsb (fun x => ObjectId.eqb (_id x) oid)
          (remove_first (fun x => ObjectId.eqb (_id x) oid) l) = false.
Proof.
  induction l as [|x r IH]; simpl; intros N; [reflexivity|].
  inversion N as [|? ? Hnotin Hr]; subst.
  destruct (ObjectId.eqb (_id x) oid) eqn:E.
  - apply String.eqb_eq in E. subst oid. apply existsb_id_not_in. exact Hnotin.
  - simpl. rewrite E. exact (IH Hr).
Qed.

Lemma remove_first_ids_NoDup {A} (p : Stored A -> bool) (l : list (Stored A)) :
  NoDup (List.map _id l) -> NoDup (List.map _id (remove_first p l)).
Proof.
  induction l as [|x r IH]; simpl; intros N; [constructor|].
  inversion N as [|? ? Hnotin Hr]; subst.
  destruct (p x); [exact Hr|]. simpl. constructor; [|exact (IH Hr)].
  intros Hin. apply Hnotin. clear - Hin.
  induction r as [|y r IH]; simpl in *; [tauto|].
  destruct (p y); simpl in *; [tauto|]. destruct Hin; [tauto|]. right; auto.
Qed.

(* ===================================================================== *)
(** ** Running the handlers *)
(* ===================================================================== *)

Lemma bind_ok {A B} (m : M A) (k : A -> M B) e s a s' :
  m e s = (Ok a, s') -> bind m k e s = k a e s'.
Proof. unfold bind. intros ->. reflexivity. Qed.

Lemma bind_throw {A B} (m : M A) (k : A -> M B) e s err s' :
  m e s = (Throw err, s') -> bind m k e s = (Throw err, s').
Proof. unfold bind. intros ->. reflexivity. Qed.

Lemma call_reachable c e s :
  reachable e = true -> call c e s = (Ok tt, log_call c s).
Proof. unfold call. intros ->. reflexivity. Qed.

Lemma call_unreachable c e s :
  reachable e = false -> call c e s = (Throw MongoNetworkError, log_call c s).
Proof. unfold call. intros ->. reflexivity. Qed.

Lemma connectToMongo_connected e s :
  isConnected s = true -> connectToMongo e s = (Ok tt, s).
Proof.
  intros H. unfold connectToMongo, bind, get. rewrite H. reflexivity.
Qed.

Lemma connectToMongo_first e s :
  isConnected s = false ->
  connectToMongo e s =
    if reachable e
    then (Ok tt, mkServer true (users s) (items s) (calls s ++ [CallConnect]))
    else (Throw MongoNetworkError, log_call CallConnect s).
Proof.
  intros H. unfold connectToMongo, bind, get, client_connect, call.
  rewrite H. simpl. destruct (reachable e); reflexivity.
Qed.

Lemma connectToMongo_reachable e s :
  reachable e = true -> connectToMongo e s = (Ok tt, after_connect s).
Proof.
  intros R. unfold after_connect. destruct (isConnected s) eqn:C.
  - apply connectToMongo_connected; assumption.
  - rewrite connectToMongo_first, R by assumption. reflexivity.
Qed.

Lemma users_after_connect s : users (after_connect s) = users s.
Proof. unfold after_connect. destruct (isConnected s); reflexivity. Qed.

Lemma items_after_connect s : items (after_connect s) = items s.
Proof. unfold after_connect. destruct (isConnected s); reflexivity. Qed.

Lemma isConnected_after_connect s : isConnected (after_connect s) = true.
Proof. unfold after_connect. destruct (isConnected s) eqn:C; [exact C|reflexivity]. Qed.

Lemma getUsersCollection_reachable e s :
  reachable e = true -> getUsersCollection e s = (Ok UsersCollection, after_connect s).
Proof.
  intros R. unfold getUsersCollection.
  rewrite (bind_ok _ _ _ _ _ _ (connectToMongo_reachable e s R)). reflexivity.
Qed.

Lemma getItemsCollection_reachable e s :
  reachable e = true -> getItemsCollection e s = (Ok ItemsCollection, after_connect s).
Proof.
  intros R. unfold getItemsCollection.
  rewrite (bind_ok _ _ _ _ _ _ (connectToMongo_reachable e s R)). reflexivity.
Qed.

Lemma findOne_reachable {A} (c : Collection A) (p : Stored A -> bool) e s :
  reachable e = true ->
  findOne c (Some p) e s =
    (Ok (find p (docs c s)), log_call (CallFindOne (collectionName c)) s).
Proof.
  intros R. unfold findOne.
  rewrite (bind_ok _ _ _ _ _ _ (call_reachable _ e s R)).
  unfold bind, get, ret. destruct c; reflexivity.
Qed.

Lemma deleteOne_reachable {A} (c : Collection A) (p : Stored A -> bool) e s :
  reachable e = true ->
  deleteOne c (Some p) e s =
    let s1 := log_call (CallDeleteOne (collectionName c)) s in
    match find p (docs c s) with
    | None => (Ok 0%nat, s1)
    | Some _ => (Ok 1%nat, set_docs c (remove_first p (docs c s)) s1)
    end.
Proof.
  intros R. unfold deleteOne.
  rewrite (bind_ok _ _ _ _ _ _ (call_reachable _ e s R)).
  unfold bind, get, put, ret. destruct c; simpl.
  - destruct (find p (users s)); reflexivity.
  - destruct (find p (items s)); reflexivity.
Qed.

Lemma insertOne_reachable {A} (c : Collection A) (d : A) e s :
  reachable e = true ->
  insertOne c d e s =
    let s1 := log_call (CallInsertOne (collectionName c)) s in
    if existsb (fun x => ObjectId.eqb (_id x) (generatedId e)) (docs c s)
    then (Throw (MongoServerError 11000), s1)
    else (Ok (generatedId e),
          set_docs c (docs c s ++ [mkStored (generatedId e) d]) s1).
Proof.
  intros R. unfold insertOne.
  rewrite (bind_ok _ _ _ _ _ _ (call_reachable _ e s R)).
  unfold bind, ask, get, put, ret, throw. destruct c; simpl.
  - destruct (existsb _ (users s)); reflexivity.
  - destruct (existsb _ (items s)); reflexivity.
Qed.

Lemma toArray_reachable {A} `{Document A} (cur : Cursor A) e s :
  reachable e = true ->
  toArray cur e s =
    (Ok (let all := docs (cursor_collection cur) s in
         let sorted := if cursor_sort_createdAt_desc cur then sort_desc all else all in
         match cursor_limit cur with
         | Some n => firstn n sorted
         | None => sorted
         end),
     log_call (CallFind (collectionName (cursor_collection cur))) s).
Proof.
  intros R. unfold toArray.
  rewrite (bind_ok _ _ _ _ _ _ (call_reachable _ e s R)).
  unfold bind, get, ret. destruct cur as [c srt lim]; destruct c; reflexivity.
Qed.

Lemma bind_ret {A B} (a : A) (k : A -> M B) e s : bind (ret a) k e s = k a e s.
Proof. reflexivity. Qed.

Lemma new_ObjectId_valid id e s :
  ObjectId.isValid id = true ->
  new_ObjectId id e s = (Ok (Str.map ObjectId.lower id), s).
Proof. intros V. unfold new_ObjectId. rewrite (new_of_valid _ V). reflexivity. Qed.

Lemma get_user_reachable id e s :
  ObjectId.isValid id = true -> reachable e = true ->
  get_user id e s =
    let s1 := log_call (CallFindOne "users") (after_connect s) in
    match find (fun d => ObjectId.eqb (_id d) (Str.map ObjectId.lower id)) (users s) with
    | None => (res_status_json 404 (JError "User not found"), s1)
    | Some u => (res_json (JUser u), s1)
    end.
Proof.
  intros V R. unfold get_user, handler, get_user_body. rewrite V. cbn [negb].
  rewrite (bind_ok _ _ _ _ _ _ (getUsersCollection_reachable e s R)).
  rewrite (bind_ok _ _ _ _ _ _ (new_ObjectId_valid id e _ V)).
  unfold by_id. rewrite (bind_ok _ _ _ _ _ _ (findOne_reachable _ _ e _ R)).
  cbn [docs collectionName]. rewrite users_after_connect.
  destruct (find _ (users s)); reflexivity.
Qed.

Lemma get_item_reachable id e s :
  ObjectId.isValid id = true -> reachable e = true ->
  get_item id e s =
    let s1 := log_call (CallFindOne "items") (after_connect s) in
    match find (fun d => ObjectId.eqb (_id d) (Str.map ObjectId.lower id)) (items s) with
    | None => (res_status_json 404 (JError "Item not found"), s1)
    | Some i => (res_json (JItem i), s1)
    end.
Proof.
  intros V R. unfold get_item, handler, get_item_body. rewrite V. cbn [negb].
  rewrite (bind_ok _ _ _ _ _ _ (getItemsCollection_reachable e s R)).
  rewrite (bind_ok _ _ _ _ _ _ (new_ObjectId_valid id e _ V)).
  unfold by_id. rewrite (bind_ok _ _ _ _ _ _ (findOne_reachable _ _ e _ R)).
  cbn [docs collectionName]. rewrite items_after_connect.
  destruct (find _ (items s)); reflexivity.
Qed.

Lemma delete_user_reachable id e s :
  ObjectId.isValid id = true -> reachable e = true ->
  delete_user id e s =
    let p := fun d : Stored User.t => ObjectId.eqb (_id d) (Str.map ObjectId.lower id) in
    let s1 := log_call (CallDeleteOne "users") (after_connect s) in
    match find p (users s) with
    | None => (res_status_json 404 (JError "User not found"), s1)
    | Some _ => (res_json (JDeleted "User deleted successfully" id),
                 set_docs UsersCollection (remove_first p (users s)) s1)
    end.
Proof.
  intros V R. unfold delete_user, handler, delete_user_body. rewrite V. cbn [negb].
  rewrite (bind_ok _ _ _ _ _ _ (getUsersCollection_reachable e s R)).
  rewrite (bind_ok _ _ _ _ _ _ (new_ObjectId_valid id e _ V)).
  unfold by_id. unfold bind at 1. rewrite (deleteOne_reachable _ _ e _ R).
  cbn [docs collectionName]. rewrite users_after_connect.
  destruct (find _ (users s)); reflexivity.
Qed.

Lemma delete_item_reachable id e s :
  ObjectId.isValid id = true -> reachable e = true ->
  delete_item id e s =
    let p := fun d : Stored Item.t => ObjectId.eqb (_id d) (Str.map ObjectId.lower id) in
    let s1 := log_call (CallDeleteOne "items") (after_connect s) in
    match find p (items s) with
    | None => (res_status_json 404 (JError "Item not found"), s1)
    | Some _ => (res_json (JDeleted "Item deleted successfully" id),
                 set_docs ItemsCollection (remove_first p (items s)) s1)
    end.
Proof.
  intros V R. unfold delete_item, handler, delete_item_body. rewrite V. cbn [negb].
  rewrite (bind_ok _ _ _ _ _ _ (getItemsCollection_reachable e s R)).
  rewrite (bind_ok _ _ _ _ _ _ (new_ObjectId_valid id e _ V)).
  unfold by_id. unfold bind at 1. rewrite (deleteOne_reachable _ _ e _ R).
  cbn [docs collectionName]. rewrite items_after_connect.
  destruct (find _ (items s)); reflexivity.
Qed.

Lemma get_users_reachable e s :
  reachable e = true ->
  get_users e s =
    (res_json (JUsers (sort_desc (users s))),
     log_call (CallFind "users") (after_connect s)).
Proof.
  intros R. unfold get_users, handler, get_users_body.
  rewrite (bind_ok _ _ _ _ _ _ (getUsersCollection_reachable e s R)).
  rewrite (bind_ok _ _ _ _ _ _ (toArray_reachable _ e _ R)).
  cbn. rewrite users_after_connect. reflexivity.
Qed.

Lemma get_items_reachable e s :
  reachable e = true ->
  get_items e s =
    (res_json (JItems (firstn 100 (sort_desc (items s)))),
     log_call (CallFind "items") (after_connect s)).
Proof.
  intros R. unfold get_items, handler, get_items_body.
  rewrite (bind_ok _ _ _ _ _ _ (getItemsCollection_reachable e s R)).
  rewrite (bind_ok _ _ _ _ _ _ (toArray_reachable _ e _ R)).
  cbn [limit sort_createdAt_desc find_all cursor_collection cursor_limit
       cursor_sort_createdAt_desc docs collectionName bind_ret ret].
  rewrite items_after_connect. reflexivity.
Qed.

Lemma post_items_reachable b e s :
  truthy (prop "name" b) = true ->
  truthy (prop "description" b) = true ->
  is_number (prop "price" b) = true ->
  reachable e = true ->
  post_items b e s =
    let d :=
      Item.mk (prop "name" b) (prop "description" b) (prop "price" b)
        (JS.or (prop "category" b) (VStr "Uncategorized"))
        (JS.or (prop "image" b) (VStr ""))
        (JS.or (prop "badge" b) VNull)
        (JS.or (prop "badgeColor" b) VNull)
        (truthy (prop "isLarge" b))
        (if isArray (prop "tags" b) then prop "tags" b else VArr [])
        (now e) in
    let s1 := log_call (CallInsertOne "items") (after_connect s) in
    if existsb (fun x => ObjectId.eqb (_id x) (generatedId e)) (items s)
    then (res_status_json 500 (JError "Internal server error"), s1)
    else (res_status_json 201 (JItem (mkStored (generatedId e) d)),
          set_docs ItemsCollection (items s ++ [mkStored (generatedId e) d]) s1).
Proof.
  intros N D P R. unfold post_items, handler, post_items_body.
  rewrite !prop_or_empty, N, D, P. cbn [negb orb].
  unfold new_Date. unfold bind at 1. unfold bind at 1. cbn [ask ret].
  rewrite (bind_ok _ _ _ _ _ _ (getItemsCollection_reachable e s R)).
  unfold bind. rewrite (insertOne_reachable _ _ e _ R).
  cbn [docs collectionName]. rewrite items_after_connect.
  destruct (existsb _ (items s)); reflexivity.
Qed.

Lemma post_users_reachable b e s p :
  truthy (prop "email" b) = true ->
  truthy (prop "name" b) = true ->
  by_email (prop "email" b) = Some p ->
  reachable e = true ->
  post_users b e s =
    let u := User.mk (prop "email" b) (prop "name" b)
               (JS.or (prop "role" b) (VStr "staff")) (now e) in
    let s1 := log_call (CallFindOne "users") (after_connect s) in
    let s2 := log_call (CallInsertOne "users") s1 in
    match find p (users s) with
    | Some _ => (res_status_json 409 (JError "User already exists"), s1)
    | None =>
        if existsb (fun x => ObjectId.eqb (_id x) (generatedId e)) (users s)
        then (res_status_json 500 (JError "Internal server error"), s2)
        else (res_status_json 201 (JUser (mkStored (generatedId e) u)),
              set_docs UsersCollection (users s ++ [mkStored (generatedId e) u]) s2)
    end.
Proof.
  intros E N F R. unfold post_users, handler, post_users_body.
  rewrite !prop_or_empty, E, N, F. cbn [negb orb].
  rewrite (bind_ok _ _ _ _ _ _ (getUsersCollection_reachable e s R)).
  rewrite (bind_ok _ _ _ _ _ _ (findOne_reachable _ _ e _ R)).
  cbn [docs collectionName]. rewrite users_after_connect.
  destruct (find p (users s)); [reflexivity|].
  unfold new_Date. unfold bind at 1. unfold bind at 1. cbn [ask ret].
  unfold bind. rewrite (insertOne_reachable _ _ e _ R).
  cbn [docs collectionName log_call users]. rewrite users_after_connect.
  destruct (existsb _ (users s)); reflexivity.
Qed.

(* ===================================================================== *)
(** ** Validation comes first *)
(* ===================================================================== *)

Lemma post_users_invalid b e s :
  truthy (prop "email" b) = false \/ truthy (prop "name" b) = false ->
  post_users b e s =
    (res_status_json 400 (JError "email and name are required"), s).
Proof.
  intros H. unfold post_users, handler, post_users_body. rewrite !prop_or_empty.
  destruct H as [-> | ->]; cbn [negb orb]; [reflexivity|].
  rewrite orb_true_r. reflexivity.
Qed.

Lemma post_items_invalid b e s :
  truthy (prop "name" b) = false \/ truthy (prop "description" b) = false
  \/ is_number (prop "price" b) = false ->
  post_items b e s =
    (res_status_json 400 (JError "name, description, and numeric price are required"), s).
Proof.
  intros H. unfold post_items, handler, post_items_body. rewrite !prop_or_empty.
  destruct H as [-> | [-> | ->]]; cbn [negb orb];
    rewrite ?orb_true_r; reflexivity.
Qed.

(** C3.  A user-creation body without [email] or without [name], and an
    item-creation body without [name], without [description] or whose
    [price] is not a number, are answered 400 and leave the server exactly as
    it was: the flag, both collections and the list of driver calls are
    unchanged, so the driver was not called at all, whatever the state of
    the deployment. *)
Theorem C3_invalid_payload_rejected_before_store :
  forall (b : value) (e : Env) (s : Server),
    (JS.missing "email" b \/ JS.missing "name" b ->
       status (fst (post_users b e s)) = 400%nat
       /\ snd (post_users b e s) = s)
    /\ (JS.missing "name" b \/ JS.missing "description" b
        \/ is_number (prop "price" b) = false ->
       status (fst (post_items b e s)) = 400%nat
       /\ snd (post_items b e s) = s).
Proof.
  intros b e s. split; intros H.
  - rewrite post_users_invalid; [split; reflexivity|].
    destruct H as [H|H]; [left|right];
      rewrite <- prop_or_empty; apply missing_falsy; exact H.
  - rewrite post_items_invalid; [split; reflexivity|].
    destruct H as [H|[H|H]]; [left|right; left|right; right; exact H];
      rewrite <- prop_or_empty; apply missing_falsy; exact H.
Qed.

(** C4.  A route parameter that is not a valid ObjectId is answered 400 by
    the get and delete handlers of users and of items, and the server is
    left exactly as it was: no connect, no lookup and no delete reached the
    driver, whether or not the deployment can be reached. *)
Theorem C4_malformed_id_rejected :
  forall (id : string) (e : Env) (s : Server),
    ObjectId.isValid id = false ->
    (status (fst (get_user id e s)) = 400%nat /\ snd (get_user id e s) = s)
    /\ (status (fst (delete_user id e s)) = 400%nat /\ snd (delete_user id e s) = s)
    /\ (status (fst (get_item id e s)) = 400%nat /\ snd (get_item id e s) = s)
    /\ (status (fst (delete_item id e s)) = 400%nat /\ snd (delete_item id e s) = s).
Proof.
  intros id e s V.
  unfold get_user, delete_user, get_item, delete_item, handler,
    get_user_body, delete_user_body, get_item_body, delete_item_body.
  rewrite V. cbn. repeat split; reflexivity.
Qed.

(* ===================================================================== *)
(** ** What every computation preserves *)
(* ===================================================================== *)

Section Respects.

Variable R : Server -> Server -> Prop.
Hypothesis R_refl : forall s, R s s.
Hypothesis R_trans : forall a b c, R a b -> R b c -> R a c.

Lemma respects_ret {A} (a : A) : respects R (ret a).
Proof. intros e s. apply R_refl. Qed.

Lemma respects_throw {A} (err : Error) : respects R (@throw A err).
Proof. intros e s. apply R_refl. Qed.

Lemma respects_ask : respects R ask.
Proof. intros e s. apply R_refl. Qed.

Lemma respects_get : respects R get.
Proof. intros e s. apply R_refl. Qed.

Lemma respects_bind {A B} (m : M A) (k : A -> M B) :
  respects R m -> (forall a, respects R (k a)) -> respects R (bind m k).
Proof.
  intros Hm Hk e s. unfold bind. specialize (Hm e s).
  destruct (m e s) as [[a|err] s1]; simpl in *; [|exact Hm].
  eapply R_trans; [exact Hm|apply Hk].
Qed.

Lemma respects_handler (m : M Response) :
  respects R m -> forall e s, R s (snd (handler m e s)).
Proof.
  intros Hm e s. unfold handler. specialize (Hm e s).
  destruct (m e s) as [[a|err] s1]; exact Hm.
Qed.

Hypothesis R_log : forall c s, R s (log_call c s).

Lemma respects_call c : respects R (call c).
Proof. intros e s. unfold call. destruct (reachable e); apply R_log. Qed.

Hypothesis R_connect : forall s, R s (mkServer true (users s) (items s) (calls s)).

Lemma respects_connectToMongo : respects R connectToMongo.
Proof.
  unfold connectToMongo. apply respects_bind; [apply respects_get|].
  intros s0. destruct (negb (isConnected s0)); [|apply respects_ret].
  apply respects_bind; [apply respects_call|].
  intros _ e s. apply R_connect.
Qed.

Lemma respects_getUsersCollection : respects R getUsersCollection.
Proof.
  apply respects_bind; [apply respects_connectToMongo|intros; apply respects_ret].
Qed.

Lemma respects_getItemsCollection : respects R getItemsCollection.
Proof.
  apply respects_bind; [apply respects_connectToMongo|intros; apply respects_ret].
Qed.

Lemma respects_findOne {A} (c : Collection A) f : respects R (findOne c f).
Proof.
  apply respects_bind; [apply respects_call|]. intros _.
  destruct f; [|apply respects_throw].
  apply respects_bind; [apply respects_get|intros; apply respects_ret].
Qed.

Lemma respects_toArray {A} `{Document A} (cur : Cursor A) : respects R (toArray cur).
Proof.
  apply respects_bind; [apply respects_call|]. intros _.
  apply respects_bind; [apply respects_get|intros; apply respects_ret].
Qed.

Lemma respects_new_ObjectId id : respects R (new_ObjectId id).
Proof.
  unfold new_ObjectId. destruct (ObjectId.new id);
    [apply respects_ret|apply respects_throw].
Qed.

Lemma respects_new_Date : respects R new_Date.
Proof.
  apply respects_bind; [apply respects_ask|intros; apply respects_ret].
Qed.

(** The two writes: what is left to show for a relation is that it
    tolerates an insert of an identifier the collection does not have and
    the removal of the first match. *)
Hypothesis R_insert : forall A (c : Collection A) (d : Stored A) s,
  existsb (fun x => ObjectId.eqb (_id x) (_id d)) (docs c s) = false ->
  R s (set_docs c (docs c s ++ [d]) s).
Hypothesis R_delete : forall A (c : Collection A) (p : Stored A -> bool) s,
  R s (set_docs c (remove_first p (docs c s)) s).

Lemma respects_insertOne {A} (c : Collection A) (d : A) : respects R (insertOne c d).
Proof.
  intros e s. unfold insertOne, bind, call, ask, get, put, ret, throw.
  destruct (reachable e); cbn [fst snd]; [|apply R_log].
  destruct (existsb _ (docs c (log_call _ s))) eqn:E; cbn [fst snd]; [apply R_log|].
  eapply R_trans; [apply R_log|].
  apply (R_insert _ c (mkStored (generatedId e) d)). exact E.
Qed.

Lemma respects_deleteOne {A} (c : Collection A) f : respects R (deleteOne c f).
Proof.
  intros e s. unfold deleteOne, bind, call, get, put, ret, throw.
  destruct (reachable e); cbn [fst snd]; [|apply R_log].
  destruct f as [p|]; cbn [fst snd]; [|apply R_log].
  destruct (find p (docs c (log_call _ s))); cbn [fst snd]; [|apply R_log].
  eapply R_trans; [apply R_log|]. apply R_delete.
Qed.

(** Every route. *)
Lemma respects_handle (r : Request) : forall e s, R s (snd (handle r e s)).
Proof.
  destruct r; cbn [handle]; try (intros e s; apply R_refl);
    apply respects_handler.
  - (* POST /api/users *)
    unfold post_users_body.
    destruct (negb _ || negb _); [apply respects_ret|].
    apply respects_bind; [apply respects_getUsersCollection|]. intros c.
    apply respects_bind; [apply respects_findOne|]. intros [u|]; [apply respects_ret|].
    apply respects_bind; [apply respects_new_Date|]. intros t.
    apply respects_bind; [apply respects_insertOne|]. intros; apply respects_ret.
  - (* GET /api/users *)
    apply respects_bind; [apply respects_getUsersCollection|]. intros c.
    apply respects_bind; [apply respects_toArray|]. intros; apply respects_ret.
  - (* GET /api/users/:id *)
    unfold get_user_body. destruct (negb _); [apply respects_ret|].
    apply respects_bind; [apply respects_getUsersCollection|]. intros c.
    apply respects_bind; [apply respects_new_ObjectId|]. intros oid.
    apply respects_bind; [apply respects_findOne|]. intros [u|]; apply respects_ret.
  - (* DELETE /api/users/:id *)
    unfold delete_user_body. destruct (negb _); [apply respects_ret|].
    apply respects_bind; [apply respects_getUsersCollection|]. intros c.
    apply respects_bind; [apply respects_new_ObjectId|]. intros oid.
    apply respects_bind; [apply respects_deleteOne|]. intros n.
    destruct (n =? 0)%nat; apply respects_ret.
  - (* GET /api/items *)
    apply respects_bind; [apply respects_getItemsCollection|]. intros c.
    apply respects_bind; [apply respects_toArray|]. intros; apply respects_ret.
  - (* GET /api/items/:id *)
    unfold get_item_body. destruct (negb _); [apply respects_ret|].
    apply respects_bind; [apply respects_getItemsCollection|]. intros c.
    apply respects_bind; [apply respects_new_ObjectId|]. intros oid.
    apply respects_bind; [apply respects_findOne|]. intros [u|]; apply respects_ret.
  - (* DELETE /api/items/:id *)
    unfold delete_item_body. destruct (negb _); [apply respects_ret|].
    apply respects_bind; [apply respects_getItemsCollection|]. intros c.
    apply respects_bind; [apply respects_new_ObjectId|]. intros oid.
    apply respects_bind; [apply respects_deleteOne|]. intros n.
    destruct (n =? 0)%nat; apply respects_ret.
  - (* POST /api/items *)
    unfold post_items_body.
    destruct (negb _ || negb _ || negb _); [apply respects_ret|].
    apply respects_bind; [apply respects_new_Date|]. intros t.
    apply respects_bind; [apply respects_getItemsCollection|]. intros c.
    apply respects_bind; [apply respects_insertOne|]. intros; apply respects_ret.
Qed.

End Respects.

(** The flag never goes back to [false]. *)
Lemma handle_keeps_connected (r : Request) e s :
  isConnected s = true -> isConnected (snd (handle r e s)) = true.
Proof.
  revert e s.
  apply (respects_handle (fun a b => isConnected a = true -> isConnected b = true)).
  - auto.
  - auto.
  - intros c s H; exact H.
  - reflexivity.
  - intros A c d s _. destruct c; simpl; auto.
  - intros A c p s. destruct c; simpl; auto.
Qed.

Lemma NoDup_snoc {A} (x : A) (l : list A) :
  ~ In x l -> NoDup l -> NoDup (l ++ [x]).
Proof.
  intros Hx Hl. apply NoDup_Add with (a := x) (l := l).
  - rewrite <- (app_nil_r l) at 1. apply Add_app.
  - constructor; assumption.
Qed.

(** The unique index on [_id] holds in every state the handlers reach from
    a state where it holds. *)
Lemma handle_keeps_unique_ids (r : Request) e s :
  unique_ids s -> unique_ids (snd (handle r e s)).
Proof.
  revert e s.
  apply (respects_handle (fun a b => unique_ids a -> unique_ids b)).
  - auto.
  - auto.
  - intros c s H; exact H.
  - intros s H; exact H.
  - intros A c d s F [Hu Hi]. apply existsb_id_not_in in F.
    destruct c; unfold unique_ids; cbn [set_docs docs users items] in *;
      (split; [|]); try assumption;
      rewrite List.map_app; apply NoDup_snoc; assumption.
  - intros A c p s [Hu Hi].
    destruct c; unfold unique_ids; cbn [set_docs docs users items] in *;
      (split; [|]); try assumption;
      apply remove_first_ids_NoDup; assumption.
Qed.

Lemma states_unique_ids (trace : list (Request * Env)) (s : Server) :
  unique_ids s -> Forall unique_ids (states trace s).
Proof.
  revert s. induction trace as [|[r e] rest IH]; intros s H; simpl.
  - constructor; [exact H|constructor].
  - constructor; [exact H|]. apply IH. apply handle_keeps_unique_ids. exact H.
Qed.

(* ===================================================================== *)
(** ** The connection flag *)
(* ===================================================================== *)

Lemma states_connected (trace : list (Request * Env)) (s : Server) :
  isConnected s = true ->
  Forall (fun x => isConnected x = true) (states trace s).
Proof.
  revert s. induction trace as [|[r e] rest IH]; intros s H; simpl.
  - constructor; [exact H|constructor].
  - constructor; [exact H|]. apply IH. apply handle_keeps_connected. exact H.
Qed.

Lemma states_head (trace : list (Request * Env)) (s : Server) :
  exists tl, states trace s = s :: tl.
Proof. destruct trace as [|[r e] rest]; simpl; eexists; reflexivity. Qed.

Lemma connections_step (a b : Server) (l : list Server) :
  connections (a :: b :: l) =
    ((if negb (isConnected a) && isConnected b then 1 else 0)
     + connections (b :: l))%nat.
Proof. reflexivity. Qed.

Lemma connections_connected (l : list Server) :
  Forall (fun x => isConnected x = true) l -> connections l = 0%nat.
Proof.
  induction l as [|a l IH]; intros F; [reflexivity|].
  inversion F as [|? ? Ha Hl]; subst. destruct l as [|b l']; [reflexivity|].
  rewrite connections_step, Ha, (IH Hl). reflexivity.
Qed.

Lemma connections_at_most_one (trace : list (Request * Env)) (s : Server) :
  (connections (states trace s) <= 1)%nat.
Proof.
  revert s. induction trace as [|[r e] rest IH]; intros s; cbn [states];
    [cbn; lia|].
  destruct (states_head rest (snd (handle r e s))) as [tl E].
  specialize (IH (snd (handle r e s))). rewrite E in *.
  rewrite connections_step.
  destruct (isConnected (snd (handle r e s))) eqn:C.
  - pose proof (states_connected rest _ C) as F. rewrite E in F.
    rewrite (connections_connected _ F). destruct (negb (isConnected s)); simpl; lia.
  - rewrite andb_false_r. simpl. exact IH.
Qed.

(** C8.  [connectToMongo] calls [client.connect()] exactly when the flag is
    [false]; a call that returns leaves the flag [true], and from then on
    every call returns at once and changes nothing.  Along any sequence of
    requests the flag, once [true], stays [true], so it goes from [false] to
    [true] at most once. *)
Theorem C8_connect_once_never_reverts :
  (forall e s, isConnected s = true -> connectToMongo e s = (Ok tt, s))
  /\ (forall e s, isConnected s = false ->
        calls (snd (connectToMongo e s)) = (calls s ++ [CallConnect])%list
        /\ isConnected (snd (connectToMongo e s)) = reachable e
        /\ users (snd (connectToMongo e s)) = users s
        /\ items (snd (connectToMongo e s)) = items s)
  /\ (forall e s s', connectToMongo e s = (Ok tt, s') ->
        isConnected s' = true
        /\ forall e', connectToMongo e' s' = (Ok tt, s'))
  /\ (forall trace s, isConnected s = true ->
        Forall (fun x => isConnected x = true) (states trace s))
  /\ (forall trace s, (connections (states trace s) <= 1)%nat).
Proof.
  split; [exact connectToMongo_connected|].
  split.
  { intros e s H. rewrite (connectToMongo_first e s H).
    destruct (reachable e); cbn; rewrite ?H; repeat split; reflexivity. }
  split.
  { intros e s s' H.
    assert (C : isConnected s' = true).
    { destruct (isConnected s) eqn:Cs.
      - rewrite (connectToMongo_connected e s Cs) in H. congruence.
      - rewrite (connectToMongo_first e s Cs) in H.
        destruct (reachable e); [|discriminate]. inversion H; reflexivity. }
    split; [exact C|]. intros e'. apply connectToMongo_connected. exact C. }
  split; [exact states_connected|exact connections_at_most_one].
Qed.

(** [start()] connects on the client itself and leaves the flag alone. *)
Lemma start_leaves_flag e s :
  isConnected (snd (start e s)) = isConnected s
  /\ exists more, calls (snd (start e s)) = (calls s ++ CallConnect :: more)%list.
Proof.
  unfold start, bind, client_connect, client_ping, call.
  destruct (reachable e); simpl; split; try reflexivity.
  - exists [CallPing]. rewrite <- app_assoc. reflexivity.
  - exists []. reflexivity.
Qed.

(* ===================================================================== *)
(** ** Lists, newest first *)
(* ===================================================================== *)

Section Sorting.

Context {A : Type} `{Document A}.

Lemma insert_desc_perm (d : Stored A) (l : list (Stored A)) :
  Permutation (d :: l) (insert_desc d l).
Proof.
  induction l as [|x r IH]; simpl; [apply Permutation_refl|].
  destruct (createdAt_of (doc x) <=? createdAt_of (doc d)).
  - apply Permutation_refl.
  - eapply perm_trans; [apply perm_swap|]. apply perm_skip. exact IH.
Qed.

Lemma sort_desc_perm (l : list (Stored A)) : Permutation (sort_desc l) l.
Proof.
  induction l as [|x r IH]; simpl; [constructor|].
  eapply perm_trans; [apply Permutation_sym, insert_desc_perm|].
  apply perm_skip. exact IH.
Qed.

Lemma insert_desc_sorted (d : Stored A) (l : list (Stored A)) :
  StronglySorted newer_first l -> StronglySorted newer_first (insert_desc d l).
Proof.
  induction l as [|x r IH]; simpl; intros S.
  - constructor; [constructor|constructor].
  - apply StronglySorted_inv in S as [Sr Fx].
    destruct (Z.leb_spec (createdAt_of (doc x)) (createdAt_of (doc d))) as [Le|Gt].
    + constructor; [constructor; assumption|].
      constructor; [unfold newer_first; lia|].
      eapply Forall_impl; [|exact Fx]. unfold newer_first. intros y Hy. lia.
    + constructor; [apply IH; exact Sr|].
      eapply Permutation_Forall; [apply insert_desc_perm|].
      constructor; [unfold newer_first; lia|exact Fx].
Qed.

Lemma sort_desc_sorted (l : list (Stored A)) :
  StronglySorted newer_first (sort_desc l).
Proof.
  induction l as [|x r IH]; simpl; [constructor|].
  apply insert_desc_sorted. exact IH.
Qed.

Lemma firstn_sorted (n : nat) (l : list (Stored A)) :
  StronglySorted newer_first l -> StronglySorted newer_first (firstn n l).
Proof.
  revert l. induction n as [|n IH]; intros l S; simpl; [constructor|].
  destruct l as [|x r]; [constructor|].
  apply StronglySorted_inv in S as [Sr Fx].
  constructor; [apply IH; exact Sr|].
  rewrite Forall_forall in *. intros y Hy. apply Fx.
  rewrite <- (firstn_skipn n r). apply in_or_app. left. exact Hy.
Qed.

Lemma firstn_newer_than_rest (n : nat) (l : list (Stored A)) :
  StronglySorted newer_first l ->
  forall a b, In a (firstn n l) -> In b (skipn n l) -> newer_first a b.
Proof.
  revert l. induction n as [|n IH]; intros l S a b Ha Hb; simpl in *; [tauto|].
  destruct l as [|x r]; simpl in *; [tauto|].
  apply StronglySorted_inv in S as [Sr Fx].
  destruct Ha as [<-|Ha].
  - rewrite Forall_forall in Fx. apply Fx.
    rewrite <- (firstn_skipn n r). apply in_or_app. right. exact Hb.
  - exact (IH r Sr a b Ha Hb).
Qed.

End Sorting.

(** C5.  When the deployment answers, GET /api/users returns every user,
    newest first, and GET /api/items returns the newest items, newest first,
    never more than 100 of them: all of them when there are at most 100,
    otherwise 100 none of which is older than an item left out. *)
Theorem C5_lists_newest_first_items_capped :
  forall (e : Env) (s : Server),
    reachable e = true ->
    (exists us,
        fst (get_users e s) = res_json (JUsers us)
        /\ StronglySorted newer_first us
        /\ Permutation us (users s)
        /\ List.length us = List.length (users s))
    /\ (exists its rest,
        fst (get_items e s) = res_json (JItems its)
        /\ StronglySorted newer_first its
        /\ (List.length its <= 100)%nat
        /\ List.length its = Nat.min 100 (List.length (items s))
        /\ Permutation (its ++ rest) (items s)
        /\ forall a b, In a its -> In b rest -> newer_first a b).
Proof.
  intros e s R. split.
  - exists (sort_desc (users s)). rewrite (get_users_reachable e s R).
    repeat split.
    + apply sort_desc_sorted.
    + apply sort_desc_perm.
    + apply Permutation_length, sort_desc_perm.
  - exists (firstn 100 (sort_desc (items s))), (skipn 100 (sort_desc (items s))).
    rewrite (get_items_reachable e s R).
    split; [reflexivity|].
    split; [apply firstn_sorted, sort_desc_sorted|].
    split; [apply firstn_le_length|].
    split; [rewrite length_firstn, (Permutation_length (sort_desc_perm (items s)));
            reflexivity|].
    split; [rewrite firstn_skipn; apply sort_desc_perm|].
    apply firstn_newer_than_rest, sort_desc_sorted.
Qed.

(* ===================================================================== *)
(** ** Delete *)
(* ===================================================================== *)

Lemma new_inv (id : string) (oid : ObjectId.t) :
  ObjectId.new id = Some oid ->
  ObjectId.isValid id = true /\ oid = Str.map ObjectId.lower id.
Proof.
  unfold ObjectId.new. destruct (ObjectId.isValid id); [|discriminate].
  intros [= <-]. split; reflexivity.
Qed.

Lemma find_by_id_some {A} (oid : ObjectId.t) (l : list (Stored A)) (d : Stored A) :
  NoDup (List.map _id l) -> In d l -> _id d = oid ->
  find (fun x => ObjectId.eqb (_id x) oid) l = Some d.
Proof.
  induction l as [|x r IH]; simpl; intros N I E; [tauto|].
  inversion N as [|? ? Hnotin Hr]; subst.
  destruct I as [->|I].
  - unfold ObjectId.eqb. rewrite String.eqb_refl. reflexivity.
  - destruct (ObjectId.eqb (_id x) (_id d)) eqn:Q.
    + apply String.eqb_eq in Q. exfalso. apply Hnotin. rewrite Q.
      apply in_map. exact I.
    + apply IH; auto.
Qed.

Lemma find_by_id_none {A} (oid : ObjectId.t) (l : list (Stored A)) :
  ~ In oid (List.map _id l) ->
  find (fun x => ObjectId.eqb (_id x) oid) l = None.
Proof. intros H. apply find_none_iff, existsb_id_not_in. exact H. Qed.

(** C6.  For a valid id, when the deployment answers: deleting an id no
    record has is answered 404 and leaves both collections as they were;
    deleting the id of a record (identifiers being unique, as the index on
    [_id] keeps them) is answered 200 with the message and the id of the
    request, takes exactly that record out of its collection and leaves the
    other collection alone, after which the id is in no record and a get on
    the same id is answered 404. *)
Theorem C6_delete_then_get :
  forall (id : string) (oid : ObjectId.t) (e e' : Env) (s : Server),
    ObjectId.new id = Some oid ->
    reachable e = true ->
    reachable e' = true ->
    (* users *)
    (~ In oid (List.map _id (users s)) ->
       status (fst (delete_user id e s)) = 404%nat
       /\ users (snd (delete_user id e s)) = users s
       /\ items (snd (delete_user id e s)) = items s)
    /\ (forall u, unique_ids s -> In u (users s) -> _id u = oid ->
       fst (delete_user id e s)
         = res_json (JDeleted "User deleted successfully" id)
       /\ (exists before after,
              users s = (before ++ u :: after)%list
              /\ users (snd (delete_user id e s)) = (before ++ after)%list)
       /\ items (snd (delete_user id e s)) = items s
       /\ ~ In oid (List.map _id (users (snd (delete_user id e s))))
       /\ status (fst (get_user id e' (snd (delete_user id e s)))) = 404%nat)
    (* items *)
    /\ (~ In oid (List.map _id (items s)) ->
       status (fst (delete_item id e s)) = 404%nat
       /\ users (snd (delete_item id e s)) = users s
       /\ items (snd (delete_item id e s)) = items s)
    /\ (forall i, unique_ids s -> In i (items s) -> _id i = oid ->
       fst (delete_item id e s)
         = res_json (JDeleted "Item deleted successfully" id)
       /\ (exists before after,
              items s = (before ++ i :: after)%list
              /\ items (snd (delete_item id e s)) = (before ++ after)%list)
       /\ users (snd (delete_item id e s)) = users s
       /\ ~ In oid (List.map _id (items (snd (delete_item id e s))))
       /\ status (fst (get_item id e' (snd (delete_item id e s)))) = 404%nat).
Proof.
  intros id oid e e' s Hnew R R'.
  destruct (new_inv _ _ Hnew) as [V ->].
  split; [|split; [|split]].
  - intros Hnot. rewrite (delete_user_reachable id e s V R). cbn zeta.
    rewrite (find_by_id_none _ _ Hnot). cbn.
    rewrite users_after_connect, items_after_connect. repeat split; reflexivity.
  - intros u [Nu Ni] Hin Hid. rewrite (delete_user_reachable id e s V R). cbn zeta.
    pose proof (find_by_id_some _ _ _ Nu Hin Hid) as F. rewrite F.
    cbn [fst snd set_docs log_call users items].
    rewrite items_after_connect.
    destruct (remove_first_split _ _ _ F) as (b & a & E1 & E2 & _ & _).
    pose proof (remove_first_unique (Str.map ObjectId.lower id) _ Nu) as G.
    split; [reflexivity|]. split; [exists b, a; split; assumption|].
    split; [reflexivity|]. split; [apply existsb_id_not_in; exact G|].
    rewrite (get_user_reachable id e' _ V R'). cbn zeta.
    cbn [users]. rewrite (proj2 (find_none_iff _ _) G). reflexivity.
  - intros Hnot. rewrite (delete_item_reachable id e s V R). cbn zeta.
    rewrite (find_by_id_none _ _ Hnot). cbn.
    rewrite users_after_connect, items_after_connect. repeat split; reflexivity.
  - intros i [Nu Ni] Hin Hid. rewrite (delete_item_reachable id e s V R). cbn zeta.
    pose proof (find_by_id_some _ _ _ Ni Hin Hid) as F. rewrite F.
    cbn [fst snd set_docs log_call users items].
    rewrite users_after_connect.
    destruct (remove_first_split _ _ _ F) as (b & a & E1 & E2 & _ & _).
    pose proof (remove_first_unique (Str.map ObjectId.lower id) _ Ni) as G.
    split; [reflexivity|]. split; [exists b, a; split; assumption|].
    split; [reflexivity|]. split; [apply existsb_id_not_in; exact G|].
    rewrite (get_item_reachable id e' _ V R'). cbn zeta.
    cbn [items]. rewrite (proj2 (find_none_iff _ _) G). reflexivity.
Qed.

(* ===================================================================== *)
(** ** Create *)
(* ===================================================================== *)

Lemma post_items_created b e s :
  valid_item_payload b ->
  reachable e = true ->
  ~ In (generatedId e) (List.map _id (items s)) ->
  let i := mkStored (generatedId e)
             (Item.mk (prop "name" b) (prop "description" b) (prop "price" b)
                (JS.or (prop "category" b) (VStr "Uncategorized"))
                (JS.or (prop "image" b) (VStr ""))
                (JS.or (prop "badge" b) VNull)
                (JS.or (prop "badgeColor" b) VNull)
                (truthy (prop "isLarge" b))
                (if isArray (prop "tags" b) then prop "tags" b else VArr [])
                (now e)) in
  fst (post_items b e s) = res_status_json 201 (JItem i)
  /\ items (snd (post_items b e s)) = (items s ++ [i])%list
  /\ users (snd (post_items b e s)) = users s.
Proof.
  intros (N & D & P) R F. cbn zeta.
  rewrite (post_items_reachable b e s N D P R). cbn zeta.
  apply existsb_id_not_in in F. rewrite F.
  cbn [fst snd set_docs log_call users items].
  rewrite users_after_connect. repeat split; reflexivity.
Qed.

(** C1, as the handler has it.  For every valid item-creation payload, when the
    deployment answers and the generated identifier is new, the response is
    201 and its body carries [name], [description] and [price] as
    submitted; [category], [image], [badge] and [badgeColor] as submitted
    when submitted truthy; [isLarge] as the boolean the submitted value
    coerces to; [tags] as submitted when an array; the generated [_id] and
    the [createdAt] of the clock; and a later get by the hexadecimal form of
    that [_id] is answered 200 with the identical record. *)
Theorem C1_create_item_then_get :
  forall (b : value) (e e' : Env) (s : Server),
    valid_item_payload b ->
    reachable e = true ->
    reachable e' = true ->
    ObjectId.wf (generatedId e) = true ->
    ~ In (generatedId e) (List.map _id (items s)) ->
    exists i,
      fst (post_items b e s) = res_status_json 201 (JItem i)
      /\ _id i = generatedId e
      /\ Item.createdAt (doc i) = now e
      /\ Item.name (doc i) = prop "name" b
      /\ Item.description (doc i) = prop "description" b
      /\ Item.price (doc i) = prop "price" b
      /\ (forall k, In k ["category"; "image"; "badge"; "badgeColor"] ->
            truthy (prop k b) = true -> Item.field k (doc i) = prop k b)
      /\ Item.isLarge (doc i) = truthy (prop "isLarge" b)
      /\ (isArray (prop "tags" b) = true -> Item.tags (doc i) = prop "tags" b)
      /\ fst (get_item (ObjectId.toHexString (_id i)) e' (snd (post_items b e s)))
         = res_json (JItem i).
Proof.
  intros b e e' s Vb R R' W F.
  destruct (post_items_created b e s Vb R F) as (E1 & E2 & _).
  eexists. split; [exact E1|]. cbn [_id doc Item.createdAt Item.name
    Item.description Item.price Item.isLarge Item.tags].
  repeat (split; [reflexivity|]).
  split.
  { intros k Hk T. cbn in Hk.
    destruct Hk as [<-|[<-|[<-|[<-|[]]]]]; cbn; apply or_truthy; exact T. }
  split; [reflexivity|].
  split; [intros ->; reflexivity|].
  destruct (new_toHexString _ W) as [V N].
  destruct (new_inv _ _ N) as [_ L].
  rewrite (get_item_reachable _ e' _ V R'). cbn zeta.
  rewrite E2, <- L. unfold ObjectId.toHexString.
  rewrite find_app_last.
  - reflexivity.
  - apply existsb_id_not_in. exact F.
  - cbn. unfold ObjectId.eqb. apply String.eqb_refl.
Qed.


Lemma post_users_created b e s p :
  truthy (prop "email" b) = true ->
  truthy (prop "name" b) = true ->
  by_email (prop "email" b) = Some p ->
  existsb p (users s) = false ->
  reachable e = true ->
  ~ In (generatedId e) (List.map _id (users s)) ->
  let u := mkStored (generatedId e)
             (User.mk (prop "email" b) (prop "name" b)
                (JS.or (prop "role" b) (VStr "staff")) (now e)) in
  fst (post_users b e s) = res_status_json 201 (JUser u)
  /\ users (snd (post_users b e s)) = (users s ++ [u])%list
  /\ items (snd (post_users b e s)) = items s
  /\ isConnected (snd (post_users b e s)) = true.
Proof.
  intros E N B X R F. cbn zeta.
  rewrite (post_users_reachable b e s p E N B R). cbn zeta.
  rewrite (proj2 (find_none_iff _ _) X).
  apply existsb_id_not_in in F. rewrite F.
  cbn [fst snd set_docs log_call users items isConnected].
  rewrite items_after_connect, isConnected_after_connect.
  repeat split; reflexivity.
Qed.

(** C10.  Defaults replace every falsy value, absent or not: a user created
    from a body whose [role] is falsy is stored with role "staff"; an item
    created from a body whose [category], [image], [badge] or [badgeColor]
    is falsy is stored with "Uncategorized", "", null or null in its
    place. *)
Theorem C10_falsy_values_take_defaults :
  forall (b : value) (e : Env) (s : Server),
    reachable e = true ->
    (forall p,
        truthy (prop "email" b) = true ->
        truthy (prop "name" b) = true ->
        by_email (prop "email" b) = Some p ->
        existsb p (users s) = false ->
        ~ In (generatedId e) (List.map _id (users s)) ->
        truthy (prop "role" b) = false ->
        exists u,
          fst (post_users b e s) = res_status_json 201 (JUser u)
          /\ User.role (doc u) = VStr "staff"
          /\ In u (users (snd (post_users b e s))))
    /\ (valid_item_payload b ->
        ~ In (generatedId e) (List.map _id (items s)) ->
        exists i,
          fst (post_items b e s) = res_status_json 201 (JItem i)
          /\ In i (items (snd (post_items b e s)))
          /\ (truthy (prop "category" b) = false ->
                Item.category (doc i) = VStr "Uncategorized")
          /\ (truthy (prop "image" b) = false -> Item.image (doc i) = VStr "")
          /\ (truthy (prop "badge" b) = false -> Item.badge (doc i) = VNull)
          /\ (truthy (prop "badgeColor" b) = false ->
                Item.badgeColor (doc i) = VNull)).
Proof.
  intros b e s R. split.
  - intros p E N B X F Rl.
    destruct (post_users_created b e s p E N B X R F) as (E1 & E2 & _).
    eexists. split; [exact E1|]. cbn [doc User.role].
    split; [apply or_falsy; exact Rl|].
    rewrite E2. apply in_or_app. right. left. reflexivity.
  - intros Vb F.
    destruct (post_items_created b e s Vb R F) as (E1 & E2 & _).
    eexists. split; [exact E1|].
    split; [rewrite E2; apply in_or_app; right; left; reflexivity|].
    cbn [doc Item.category Item.image Item.badge Item.badgeColor].
    repeat split; intros T; apply or_falsy; exact T.
Qed.

(* ===================================================================== *)
(** ** Duplicate email *)
(* ===================================================================== *)

Lemma after_connect_connected s : isConnected s = true -> after_connect s = s.
Proof. unfold after_connect. intros ->. reflexivity. Qed.

Lemma has_email_matches (em : string) (u : Stored User.t) :
  has_email em u = true -> string_matches em (User.email (doc u)) = true.
Proof.
  unfold has_email, string_matches. destruct (User.email (doc u)); auto; discriminate.
Qed.

Lemma filter_none {A} (p q : A -> bool) (l : list A) :
  (forall x, p x = true -> q x = true) ->
  existsb q l = false -> filter p l = [].
Proof.
  intros Hpq. induction l as [|x r IH]; simpl; [reflexivity|].
  intros H. apply orb_false_iff in H as [Hx Hr].
  destruct (p x) eqn:Px; [rewrite (Hpq _ Px) in Hx; discriminate|exact (IH Hr)].
Qed.

Lemma truthy_string (em : string) : em <> "" -> truthy (VStr em) = true.
Proof.
  intros H. cbn. apply negb_true_iff. apply String.eqb_neq. exact H.
Qed.

(** C2.  Two user-creation requests with the same (string) email, served
    one after the other while the deployment answers, starting where no
    user matches that email: the first is answered 201, the second 409; the
    second makes one driver call, the lookup, and leaves both collections as
    the first left them; afterwards exactly one user has that email. *)
Theorem C2_duplicate_email_conflict :
  forall (em : string) (b1 b2 : value) (e1 e2 : Env) (s : Server),
    em <> "" ->
    prop "email" b1 = VStr em ->
    prop "email" b2 = VStr em ->
    truthy (prop "name" b1) = true ->
    truthy (prop "name" b2) = true ->
    reachable e1 = true ->
    reachable e2 = true ->
    existsb (fun u => string_matches em (User.email (doc u))) (users s) = false ->
    ~ In (generatedId e1) (List.map _id (users s)) ->
    let s1 := snd (post_users b1 e1 s) in
    let s2 := snd (post_users b2 e2 s1) in
    status (fst (post_users b1 e1 s)) = 201%nat
    /\ status (fst (post_users b2 e2 s1)) = 409%nat
    /\ users s2 = users s1
    /\ items s2 = items s1
    /\ calls s2 = (calls s1 ++ [CallFindOne "users"])%list
    /\ List.length (filter (has_email em) (users s2)) = 1%nat.
Proof.
  intros em b1 b2 e1 e2 s Hem E1 E2 N1 N2 R1 R2 X F. cbn zeta.
  pose proof (truthy_string em Hem) as T.
  assert (B1 : by_email (prop "email" b1)
               = Some (fun d => string_matches em (User.email (doc d))))
    by (rewrite E1; reflexivity).
  assert (B2 : by_email (prop "email" b2)
               = Some (fun d => string_matches em (User.email (doc d))))
    by (rewrite E2; reflexivity).
  assert (T1 : truthy (prop "email" b1) = true) by (rewrite E1; exact T).
  assert (T2 : truthy (prop "email" b2) = true) by (rewrite E2; exact T).
  destruct (post_users_created b1 e1 s _ T1 N1 B1 X R1 F) as (P1 & P2 & P3 & P4).
  rewrite P1. split; [reflexivity|].
  rewrite (post_users_reachable b2 e2 _ _ T2 N2 B2 R2). cbn zeta.
  rewrite (after_connect_connected _ P4), P2.
  rewrite (find_app_last _ _ _ X)
    by (cbn; rewrite E1; cbn; apply String.eqb_refl).
  cbn [fst snd status res_status_json log_call users items calls].
  rewrite P2.
  repeat (split; [reflexivity|]).
  rewrite filter_app, (filter_none _ _ _ (has_email_matches em) X).
  cbn. unfold has_email. cbn. rewrite E1, String.eqb_refl. reflexivity.
Qed.

(* ===================================================================== *)
(** ** The CORS allow-list *)
(* ===================================================================== *)

Lemma nonempty_iff (s : string) : Str.nonempty s = true <-> s <> "".
Proof.
  unfold Str.nonempty. rewrite negb_true_iff. apply String.eqb_neq.
Qed.

Lemma configured_eq (client_url : string) :
  Cors.configured client_url
  = filter Str.nonempty (List.map Str.trim (Str.split ","%char client_url)).
Proof.
  unfold Cors.configured. destruct client_url; reflexivity.
Qed.

Lemma configured_entries (client_url o : string) :
  In o (Cors.configured client_url) <-> Cors.entry_of client_url o.
Proof.
  rewrite configured_eq, filter_In, in_map_iff, nonempty_iff. split.
  - intros [[p [E I]] Ne]. exact (Cors.entry_intro _ _ p I (eq_sym E) Ne).
  - intros [p I E Ne]. split; [exists p; auto|exact Ne].
Qed.

(** C9.  The allow-list is made of the pieces of the configured string
    between commas (joined by commas they give the string back, and none
    contains a comma), each trimmed of the white space at its two ends,
    the empty ones dropped, in the order of the string; when none is left
    the allow-list is the pair http://localhost:3000,
    http://localhost:5173. *)
Theorem C9_cors_allow_list :
  forall client_url : string,
    let pieces := Str.split ","%char client_url in
    let entries := filter Str.nonempty (List.map Str.trim pieces) in
    Str.join ","%char pieces = client_url
    /\ Forall (fun p => Str.all (fun c => negb (Ascii.eqb c ","%char)) p = true) pieces
    /\ Forall (fun p => exists l r,
                 p = l ++ Str.trim p ++ r
                 /\ Str.all Str.is_space l = true
                 /\ Str.all Str.is_space r = true
                 /\ match Str.first (Str.trim p) with
                    | Some c => Str.is_space c = false
                    | None => True
                    end
                 /\ match Str.last (Str.trim p) with
                    | Some c => Str.is_space c = false
                    | None => True
                    end) pieces
    /\ (forall o, In o entries <-> Cors.entry_of client_url o)
    /\ Cors.allowedOrigins client_url
       = match entries with
         | [] => ["http://localhost:3000"; "http://localhost:5173"]
         | _ :: _ => entries
         end.
Proof.
  intros client_url pieces entries.
  split; [apply join_split|].
  split; [apply split_pieces_free|].
  split.
  { apply Forall_forall. intros p _.
    destruct (trim_spec p) as ((l & r & E & Al & Ar) & Hf & Hl).
    exists l, r. repeat split; assumption. }
  split.
  { intros o. unfold entries, pieces. rewrite <- configured_eq.
    apply configured_entries. }
  unfold Cors.allowedOrigins. rewrite configured_eq. fold pieces. fold entries.
  destruct entries; reflexivity.
Qed.

(* ===================================================================== *)
(** ** More on split and trim *)
(* ===================================================================== *)

Lemma all_app (p : ascii -> bool) (a b : string) :
  Str.all p (a ++ b) = Str.all p a && Str.all p b.
Proof.
  induction a as [|c r IH]; simpl; [reflexivity|].
  rewrite IH, andb_assoc. reflexivity.
Qed.

Lemma trimStart_fix (s : string) :
  match Str.first s with
  | Some c => Str.is_space c = false
  | None => True
  end ->
  Str.trimStart s = s.
Proof. destruct s as [|c r]; simpl; [reflexivity|]. intros ->. reflexivity. Qed.

Lemma trimEnd_fix (s : string) :
  match Str.last s with
  | Some c => Str.is_space c = false
  | None => True
  end ->
  Str.trimEnd s = s.
Proof.
  induction s as [|c t IH]; [reflexivity|].
  destruct t as [|k ks].
  - simpl. intros ->. reflexivity.
  - intros H. change (Str.last (String c (String k ks))) with (Str.last (String k ks)) in H.
    change (Str.trimEnd (String c (String k ks)))
      with (match Str.trimEnd (String k ks) with
            | EmptyString => if Str.is_space c then EmptyString else String c EmptyString
            | kept => String c kept
            end).
    rewrite (IH H). reflexivity.
Qed.

Lemma trimStart_blank (s : string) :
  Str.all Str.is_space s = true -> Str.trimStart s = "".
Proof.
  induction s as [|c r IH]; simpl; [reflexivity|].
  intros H. apply andb_true_iff in H as [Hc Hr]. rewrite Hc. exact (IH Hr).
Qed.

Lemma all_trimStart (p : ascii -> bool) (s : string) :
  Str.all p s = true -> Str.all p (Str.trimStart s) = true.
Proof.
  induction s as [|c r IH]; simpl; [reflexivity|].
  intros H. destruct (Str.is_space c); [|exact H].
  apply andb_true_iff in H as [_ Hr]. exact (IH Hr).
Qed.

Lemma all_trimEnd (p : ascii -> bool) (s : string) :
  Str.all p s = true -> Str.all p (Str.trimEnd s) = true.
Proof.
  induction s as [|c r IH]; simpl; [reflexivity|].
  intros H. apply andb_true_iff in H as [Hc Hr]. specialize (IH Hr).
  destruct (Str.trimEnd r) as [|k ks].
  - destruct (Str.is_space c); simpl; [reflexivity|rewrite Hc; reflexivity].
  - simpl in *. rewrite Hc. exact IH.
Qed.

Lemma all_trim (p : ascii -> bool) (s : string) :
  Str.all p s = true -> Str.all p (Str.trim s) = true.
Proof. intros H. apply all_trimEnd, all_trimStart, H. Qed.

Lemma length_trimStart (s : string) :
  (String.length (Str.trimStart s) <= String.length s)%nat.
Proof.
  induction s as [|c r IH]; simpl; [lia|].
  destruct (Str.is_space c); simpl; lia.
Qed.

Lemma length_trimEnd (s : string) :
  (String.length (Str.trimEnd s) <= String.length s)%nat.
Proof.
  induction s as [|c r IH]; simpl; [lia|].
  destruct (Str.trimEnd r) as [|k ks].
  - destruct (Str.is_space c); simpl; lia.
  - simpl in *. lia.
Qed.

(** [trim] is idempotent, never lengthens, keeps whatever every code
    unit of the string satisfies, and gives the empty string exactly on the
    strings made of white space only. *)
Theorem trim_normal_form :
  forall s : string,
    Str.trim (Str.trim s) = Str.trim s
    /\ (String.length (Str.trim s) <= String.length s)%nat
    /\ (Str.trim s = "" <-> Str.all Str.is_space s = true)
    /\ forall p, Str.all p s = true -> Str.all p (Str.trim s) = true.
Proof.
  intros s. destruct (trim_spec s) as ((l & r & E & Al & Ar) & Hf & Hl).
  split; [|split; [|split]].
  - unfold Str.trim at 1. rewrite (trimStart_fix _ Hf). apply trimEnd_fix. exact Hl.
  - unfold Str.trim.
    pose proof (length_trimEnd (Str.trimStart s)).
    pose proof (length_trimStart s). lia.
  - split.
    + intros T. rewrite T in E. rewrite E. simpl.
      rewrite all_app, Al, Ar. reflexivity.
    + intros B. unfold Str.trim. rewrite (trimStart_blank _ B). reflexivity.
  - intros p. apply all_trim.
Qed.

Lemma split_length (sep : ascii) (s : string) :
  List.length (Str.split sep s) = S (Str.count sep s).
Proof.
  induction s as [|c r IH]; simpl; [reflexivity|].
  destruct (Ascii.eqb c sep).
  - simpl. rewrite IH. reflexivity.
  - pose proof (split_not_nil sep r) as N.
    destruct (Str.split sep r) as [|p ps]; [congruence|].
    simpl in *. exact IH.
Qed.

Lemma split_free (sep : ascii) (p : string) :
  Str.all (fun c => negb (Ascii.eqb c sep)) p = true -> Str.split sep p = [p].
Proof.
  induction p as [|c r IH]; simpl; [reflexivity|].
  intros H. apply andb_true_iff in H as [Hc Hr].
  apply negb_true_iff in Hc. rewrite Hc, (IH Hr). reflexivity.
Qed.

Lemma split_free_sep (sep : ascii) (p rest : string) :
  Str.all (fun c => negb (Ascii.eqb c sep)) p = true ->
  Str.split sep (p ++ String sep rest) = p :: Str.split sep rest.
Proof.
  induction p as [|c r IH]; simpl.
  - intros _. rewrite Ascii.eqb_refl. reflexivity.
  - intros H. apply andb_true_iff in H as [Hc Hr].
    apply negb_true_iff in Hc. rewrite Hc, (IH Hr). reflexivity.
Qed.

(** [split] gives one piece more than the string has separators, and
    undoes [join]: a non-empty list of pieces none of which contains the
    separator is what splitting their join gives back. *)
Theorem split_counts_and_undoes_join :
  forall (sep : ascii) (s : string) (pieces : list string),
    List.length (Str.split sep s) = S (Str.count sep s)
    /\ (pieces <> [] ->
        Forall (fun p => Str.all (fun c => negb (Ascii.eqb c sep)) p = true) pieces ->
        Str.split sep (Str.join sep pieces) = pieces).
Proof.
  intros sep s pieces. split; [apply split_length|].
  induction pieces as [|p ps IH]; intros N F; [congruence|].
  inversion F as [|? ? Fp Fps]; subst.
  destruct ps as [|q qs].
  - simpl. apply split_free. exact Fp.
  - change (Str.join sep (p :: q :: qs))
      with (p ++ String sep (Str.join sep (q :: qs))).
    rewrite (split_free_sep _ _ _ Fp), IH; [reflexivity|discriminate|exact Fps].
Qed.

(* ===================================================================== *)
(** ** Configuration *)
(* ===================================================================== *)

Lemma or_string_nonempty (v : option string) (d : string) :
  d <> "" -> Config.or_string v d <> "".
Proof.
  intros D. unfold Config.or_string. destruct v as [s|]; [|exact D].
  destruct (Str.nonempty s) eqn:N; [|exact D]. apply nonempty_iff. exact N.
Qed.

(** X1.  Whatever the environment, [MONGODB_URI] is a non-empty string, so
    the warning of lines 19-21 is never printed: with no URI configured the
    template fills in, and credentials that are not set read "undefined". *)
Theorem X1_mongodb_uri_never_empty :
  forall env : Config.ProcessEnv,
    Config.mongodb_uri env <> ""
    /\ Config.warns env = false
    /\ (Config.or_string (Config.MONGODB_URI env) "" = "" ->
        Config.DB_USER env = None ->
        Config.DB_PASS env = None ->
        Config.mongodb_uri env
        = "mongodb+srv://undefined:undefined@" ++ Config.mongo_cluster env
            ++ "/?appName=Cluster0").
Proof.
  intros env.
  assert (N : Config.mongodb_uri env <> "").
  { unfold Config.mongodb_uri. apply or_string_nonempty. discriminate. }
  split; [exact N|]. split.
  - unfold Config.warns. apply negb_false_iff, nonempty_iff. exact N.
  - intros U Hu Hp. unfold Config.mongodb_uri in *. rewrite Hu, Hp.
    unfold Config.or_string in *. destruct (Config.MONGODB_URI env) as [u|].
    + destruct (Str.nonempty u) eqn:E; [|reflexivity].
      apply nonempty_iff in E. contradiction.
    + reflexivity.
Qed.

Lemma configured_clean (client_url : string) :
  Forall (fun o => o <> ""
                   /\ Str.all (fun c => negb (Ascii.eqb c ","%char)) o = true
                   /\ match Str.first o with
                      | Some c => Str.is_space c = false
                      | None => True
                      end
                   /\ match Str.last o with
                      | Some c => Str.is_space c = false
                      | None => True
                      end)
         (Cors.configured client_url).
Proof.
  apply Forall_forall. intros o Ho.
  apply configured_entries in Ho as [p I -> Ne].
  pose proof (split_pieces_free ","%char client_url) as F.
  rewrite Forall_forall in F.
  destruct (trim_spec p) as (_ & Hf & Hl).
  repeat split; try assumption. apply all_trim, F, I.
Qed.

(** X2.  The allow-list is never empty, and each of its origins is a
    non-empty string without a comma and without white space at either end.
    When [CLIENT_URL] is not set, or set to the empty string, it is the
    single origin http://localhost:5173. *)
Theorem X2_allow_list_never_empty_and_clean :
  forall env : Config.ProcessEnv,
    Config.allowed_origins env <> []
    /\ Forall (fun o => o <> ""
                        /\ Str.all (fun c => negb (Ascii.eqb c ","%char)) o = true
                        /\ match Str.first o with
                           | Some c => Str.is_space c = false
                           | None => True
                           end
                        /\ match Str.last o with
                           | Some c => Str.is_space c = false
                           | None => True
                           end)
              (Config.allowed_origins env)
    /\ (Config.or_string (Config.CLIENT_URL env) "" = "" ->
        Config.allowed_origins env = ["http://localhost:5173"]).
Proof.
  intros env. unfold Config.allowed_origins.
  set (url := Cors.CLIENT_URL (Config.CLIENT_URL env)).
  split; [|split].
  - unfold Cors.allowedOrigins.
    destruct (Cors.configured url) as [|o os] eqn:E; simpl; discriminate.
  - unfold Cors.allowedOrigins. pose proof (configured_clean url) as C.
    destruct (Cors.configured url) as [|o os] eqn:E; [|exact C].
    simpl. repeat constructor; discriminate.
  - intros U. unfold url, Cors.CLIENT_URL, Config.or_string in *.
    destruct (Config.CLIENT_URL env) as [s|]; [|reflexivity].
    destruct (Str.nonempty s) eqn:N; [|reflexivity].
    apply nonempty_iff in N. contradiction.
Qed.

(* ===================================================================== *)
(** ** More on ObjectId *)
(* ===================================================================== *)

(** What [new ObjectId(id)] builds is in normal form: 24 lower-case
    hexadecimal digits, itself a valid id, and the identifier it denotes is
    itself; so two spellings of an id that differ in the case of their
    digits denote the same identifier. *)
Theorem objectid_normal_form :
  forall (id : string) (oid : ObjectId.t),
    ObjectId.new id = Some oid ->
    ObjectId.wf oid = true
    /\ String.length oid = 24%nat
    /\ ObjectId.isValid (ObjectId.toHexString oid) = true
    /\ ObjectId.new (ObjectId.toHexString oid) = Some oid
    /\ ObjectId.new (Str.map ObjectId.lower id) = Some oid.
Proof.
  intros id oid H. pose proof (new_wf _ _ H) as W.
  destruct (new_toHexString _ W) as [V N].
  destruct (new_inv _ _ H) as [_ E].
  split; [exact W|]. split.
  { unfold ObjectId.wf in W. apply andb_true_iff in W as [L _].
    apply Nat.eqb_eq. exact L. }
  split; [exact V|]. split; [exact N|].
  rewrite <- E. exact N.
Qed.

(* ===================================================================== *)
(** ** The handlers when the deployment cannot be reached *)
(* ===================================================================== *)

Lemma connectToMongo_unreachable e s :
  reachable e = false ->
  connectToMongo e s =
    if isConnected s then (Ok tt, s)
    else (Throw MongoNetworkError, log_call CallConnect s).
Proof.
  intros R. destruct (isConnected s) eqn:C.
  - apply connectToMongo_connected. exact C.
  - rewrite (connectToMongo_first e s C), R. reflexivity.
Qed.

Lemma handle_unreachable (r : Request) e s :
  uses_store r = true ->
  accepted r = true ->
  reachable e = false ->
  handle r e s =
    (internal_server_error,
     log_call (if isConnected s then first_call r else CallConnect) s).
Proof.
  intros U A R.
  destruct r as [| |b| |id|id| |id|id|b]; try discriminate U;
    cbn [handle accepted first_call] in *;
    unfold post_users, get_users, get_user, delete_user, get_items, get_item,
      delete_item, post_items, handler, post_users_body, get_users_body,
      get_user_body, delete_user_body, get_items_body, get_item_body,
      delete_item_body, post_items_body, getUsersCollection, getItemsCollection;
    rewrite ?prop_or_empty;
    repeat match type of A with
           | _ && _ = true => apply andb_true_iff in A; destruct A as [A ?]
           end;
    repeat match goal with
           | H : _ = true |- _ => rewrite H
           end;
    cbn [negb orb];
    unfold bind at 1; unfold bind at 1; unfold bind at 1;
    unfold new_Date, ask, ret, bind;
    rewrite (connectToMongo_unreachable e s R);
    destruct (isConnected s); try reflexivity;
    unfold new_ObjectId, findOne, deleteOne, insertOne, toArray, bind;
    rewrite ?(new_of_valid _ A);
    cbn [ret]; rewrite (call_unreachable _ e s R); reflexivity.
Qed.

Lemma handle_rejected (r : Request) e s :
  accepted r = false ->
  handle r e s = (res_status_json 400 (JError (rejection r)), s).
Proof.
  intros A. destruct r as [| |b| |id|id| |id|id|b]; try discriminate A;
    cbn [handle accepted rejection] in *.
  - apply post_users_invalid. apply andb_false_iff in A. exact A.
  - unfold get_user, handler, get_user_body. rewrite A. reflexivity.
  - unfold delete_user, handler, delete_user_body. rewrite A. reflexivity.
  - unfold get_item, handler, get_item_body. rewrite A. reflexivity.
  - unfold delete_item, handler, delete_item_body. rewrite A. reflexivity.
  - apply post_items_invalid. apply andb_false_iff in A as [A|A]; [|tauto].
    apply andb_false_iff in A. tauto.
Qed.

Lemma post_users_refused b e s :
  truthy (prop "email" b) = true ->
  truthy (prop "name" b) = true ->
  by_email (prop "email" b) = None ->
  reachable e = true ->
  post_users b e s =
    (internal_server_error, log_call (CallFindOne "users") (after_connect s)).
Proof.
  intros E N F R. unfold post_users, handler, post_users_body.
  rewrite !prop_or_empty, E, N, F. cbn [negb orb].
  rewrite (bind_ok _ _ _ _ _ _ (getUsersCollection_reachable e s R)).
  unfold findOne. unfold bind at 1.
  rewrite (bind_ok _ _ _ _ _ _ (call_reachable _ e _ R)). reflexivity.
Qed.

(** The three regimes of a request: not accepted; accepted while the
    deployment cannot be reached; accepted while it answers (the goal is then
    left with the result the route's run lemma gives). *)
Ltac regimes r e s :=
  let A := fresh "A" in
  let R := fresh "R" in
  destruct (accepted r) eqn:A;
    [ destruct (reachable e) eqn:R;
      [ destruct r as [| |?b| |?id|?id| |?id|?id|?b];
        cbn [handle accepted uses_store first_call] in *;
        [ unfold get_root
        | unfold get_health
        | let A1 := fresh "A" in
          apply andb_true_iff in A as [A A1];
          let q := fresh "q" in
          destruct (by_email (prop "email" b)) as [q|] eqn:?;
          [ rewrite (post_users_reachable b e s q A A1 ltac:(assumption) R)
          | rewrite (post_users_refused b e s A A1 ltac:(assumption) R) ]
        | rewrite (get_users_reachable e s R)
        | rewrite (get_user_reachable id e s A R)
        | rewrite (delete_user_reachable id e s A R)
        | rewrite (get_items_reachable e s R)
        | rewrite (get_item_reachable id e s A R)
        | rewrite (delete_item_reachable id e s A R)
        | let A1 := fresh "A" in
          let A2 := fresh "A" in
          apply andb_true_iff in A as [A A2];
          apply andb_true_iff in A as [A A1];
          rewrite (post_items_reachable b e s A A1 A2 R) ]
      | destruct (uses_store r) eqn:?;
        [ rewrite (handle_unreachable r e s ltac:(assumption) A R)
        | destruct r; try discriminate; cbn [handle]; unfold get_root, get_health ] ]
    | rewrite (handle_rejected r e s A) ];
  cbn zeta;
  repeat match goal with
         | |- context [match find ?p ?l with _ => _ end] =>
             let F := fresh "F" in destruct (find p l) eqn:F
         | |- context [if existsb ?p ?l then _ else _] =>
             let X := fresh "X" in destruct (existsb p l) eqn:X
         end;
  cbn [fst snd status body res_status_json res_json res_send
       internal_server_error users items calls isConnected log_call set_docs];
  rewrite ?users_after_connect, ?items_after_connect, ?isConnected_after_connect.

(** X3.  A request is answered 400 exactly when it fails the handler's
    checks (a falsy or absent [email] or [name]; a falsy or absent [name] or
    [description] or a [price] that is not a number; an id that is not a
    valid ObjectId); the answer then carries the route's message and the
    server is left exactly as it was.  Every other 4xx or 5xx, and every
    GET, leaves both collections as they were; the users routes never change
    the items and the items routes never change the users. *)
Theorem X3_rejections_and_frames :
  forall (r : Request) (e : Env) (s : Server),
    (accepted r = false <-> status (fst (handle r e s)) = 400%nat)
    /\ (accepted r = false ->
        handle r e s = (res_status_json 400 (JError (rejection r)), s))
    /\ ((400 <= status (fst (handle r e s)))%nat ->
        users (snd (handle r e s)) = users s
        /\ items (snd (handle r e s)) = items s)
    /\ match r with
       | POST_users _ | DELETE_user _ => items (snd (handle r e s)) = items s
       | POST_items _ | DELETE_item _ => users (snd (handle r e s)) = users s
       | _ => users (snd (handle r e s)) = users s
              /\ items (snd (handle r e s)) = items s
       end.
Proof.
  intros r e s. split; [|split; [apply handle_rejected|split]].
  - regimes r e s; split; intros H; try reflexivity; try discriminate H.
  - regimes r e s; intros H; try (split; reflexivity); cbn in H; lia.
  - regimes r e s; try (split; reflexivity); try reflexivity;
      destruct r; try discriminate; try (split; reflexivity); reflexivity.
Qed.

(** X4.  While the deployment cannot be reached, every accepted request to
    a store route is answered 500 with the generic body and changes neither
    collection nor the flag; it makes exactly one driver call, the connect
    when the flag is [false], otherwise the first call of the route. *)
Theorem X4_unreachable_is_500 :
  forall (r : Request) (e : Env) (s : Server),
    uses_store r = true ->
    accepted r = true ->
    reachable e = false ->
    fst (handle r e s) = res_status_json 500 (JError "Internal server error")
    /\ users (snd (handle r e s)) = users s
    /\ items (snd (handle r e s)) = items s
    /\ isConnected (snd (handle r e s)) = isConnected s
    /\ calls (snd (handle r e s))
       = (calls s ++ [if isConnected s then first_call r else CallConnect])%list.
Proof.
  intros r e s U A R. rewrite (handle_unreachable r e s U A R).
  repeat split; reflexivity.
Qed.

(** X5.  Each route answers only the statuses of its row; a 500 always
    carries the generic body, whatever was thrown; a status of 400 or more
    always comes with an [error] body and a status below 400 never does. *)
Theorem X5_status_table :
  forall (r : Request) (e : Env) (s : Server),
    In (status (fst (handle r e s))) (statuses r)
    /\ (status (fst (handle r e s)) = 500%nat ->
        fst (handle r e s) = res_status_json 500 (JError "Internal server error"))
    /\ ((400 <= status (fst (handle r e s)))%nat <->
        exists msg, body (fst (handle r e s)) = JError msg).
Proof.
  intros r e s. split; [|split].
  - regimes r e s; try (destruct r; try discriminate); cbn; tauto.
  - regimes r e s; intros H; try reflexivity; try discriminate H.
  - regimes r e s; split; intros H;
      try (eexists; reflexivity); try (cbn in H; lia);
      try (destruct H as [msg H]; discriminate H); cbn; lia.
Qed.

Lemma calls_after_connect s :
  calls (after_connect s)
  = (calls s ++ (if isConnected s then [] else [CallConnect]))%list.
Proof.
  unfold after_connect. destruct (isConnected s); cbn;
    [rewrite app_nil_r|]; reflexivity.
Qed.

(** X6.  What a request does to the connection: the driver calls it adds
    to the log are, in this order, one connect if and only if the flag was
    [false] and the request was accepted by a store route, then at most two
    calls on the route's collection, never a ping; and the flag afterwards
    is [true] exactly when it was [true] before or that connect was made
    while the deployment could be reached. *)
Theorem X6_connection_discipline :
  forall (r : Request) (e : Env) (s : Server),
    exists ops,
      calls (snd (handle r e s))
      = (calls s
           ++ (if negb (isConnected s) && uses_store r && accepted r
               then [CallConnect] else [])
           ++ ops)%list
      /\ (List.length ops <= 2)%nat
      /\ ~ In CallConnect ops
      /\ ~ In CallPing ops
      /\ isConnected (snd (handle r e s))
         = isConnected s || (uses_store r && accepted r && reachable e).
Proof.
  intros r e s.
  regimes r e s; rewrite ?calls_after_connect, <- ?app_assoc;
    try match goal with
        | H : uses_store ?r = true |- _ =>
            destruct r; try discriminate; cbn [first_call uses_store]
        end;
    destruct (isConnected s) eqn:C; cbn [negb andb orb app];
    rewrite ?andb_true_r, ?andb_false_r; cbn [andb app];
    first [ eexists; split; [reflexivity|]
          | exists []; split; [rewrite ?app_nil_r; reflexivity|] ];
    cbn; repeat split; try lia; try reflexivity;
    try (intros H; repeat (destruct H as [H|H]; try discriminate H); exact H).
Qed.

(* ===================================================================== *)
(** ** What the answers of the store routes mean *)
(* ===================================================================== *)

Lemma handle_created (r : Request) (e : Env) (s : Server) :
  status (fst (handle r e s)) = 201%nat ->
  match r with
  | POST_users b =>
      exists u,
        fst (handle r e s) = res_status_json 201 (JUser u)
        /\ users (snd (handle r e s)) = (users s ++ [u])%list
        /\ _id u = generatedId e
        /\ ~ In (_id u) (List.map _id (users s))
        /\ User.createdAt (doc u) = now e
        /\ User.email (doc u) = prop "email" b
        /\ User.name (doc u) = prop "name" b
        /\ reachable e = true
  | POST_items b =>
      exists i,
        fst (handle r e s) = res_status_json 201 (JItem i)
        /\ items (snd (handle r e s)) = (items s ++ [i])%list
        /\ _id i = generatedId e
        /\ ~ In (_id i) (List.map _id (items s))
        /\ Item.createdAt (doc i) = now e
        /\ Item.name (doc i) = prop "name" b
        /\ Item.description (doc i) = prop "description" b
        /\ Item.price (doc i) = prop "price" b
        /\ reachable e = true
  | _ => False
  end.
Proof.
  regimes r e s; intros H; try discriminate H;
    try (destruct r; try discriminate; discriminate H);
    (eexists; split; [reflexivity|]; split; [reflexivity|];
     split; [reflexivity|];
     split; [apply existsb_id_not_in; assumption|];
     repeat split; reflexivity).
Qed.

(** X7.  A 201 means stored: when a create route answers 201 the
    deployment was reached, the record of the body is the last record of
    the route's collection, which is otherwise as before; it carries the
    generated [_id], that no record had, the [createdAt] of the clock and
    the required fields of the request as submitted. *)
Theorem X7_created_means_stored :
  forall (b : value) (e : Env) (s : Server),
    (status (fst (post_users b e s)) = 201%nat ->
       exists u,
         fst (post_users b e s) = res_status_json 201 (JUser u)
         /\ users (snd (post_users b e s)) = (users s ++ [u])%list
         /\ _id u = generatedId e
         /\ ~ In (_id u) (List.map _id (users s))
         /\ User.createdAt (doc u) = now e
         /\ User.email (doc u) = prop "email" b
         /\ User.name (doc u) = prop "name" b
         /\ reachable e = true)
    /\ (status (fst (post_items b e s)) = 201%nat ->
       exists i,
         fst (post_items b e s) = res_status_json 201 (JItem i)
         /\ items (snd (post_items b e s)) = (items s ++ [i])%list
         /\ _id i = generatedId e
         /\ ~ In (_id i) (List.map _id (items s))
         /\ Item.createdAt (doc i) = now e
         /\ Item.name (doc i) = prop "name" b
         /\ Item.description (doc i) = prop "description" b
         /\ Item.price (doc i) = prop "price" b
         /\ reachable e = true).
Proof.
  intros b e s. split; intros H.
  - exact (handle_created (POST_users b) e s H).
  - exact (handle_created (POST_items b) e s H).
Qed.

Lemma find_by_id_in {A} (oid : ObjectId.t) (l : list (Stored A)) :
  In oid (List.map _id l) ->
  exists d, find (fun x => ObjectId.eqb (_id x) oid) l = Some d
            /\ In d l /\ _id d = oid.
Proof.
  intros H. apply existsb_id_in in H.
  destruct (find (fun x => ObjectId.eqb (_id x) oid) l) as [d|] eqn:F.
  - exists d. split; [reflexivity|]. apply find_some in F as [I E].
    split; [exact I|]. apply String.eqb_eq. exact E.
  - apply find_none_iff in F. congruence.
Qed.

(** X8.  Get by id, for a valid id while the deployment answers: if some
    record of the collection has the identifier the id denotes, the answer
    is 200 with a record of the collection that has it; if none has, the
    answer is 404.  Either way both collections are left as they were. *)
Theorem X8_get_by_id_finds_the_record :
  forall (id : string) (oid : ObjectId.t) (e : Env) (s : Server),
    ObjectId.new id = Some oid ->
    reachable e = true ->
    (In oid (List.map _id (users s)) ->
       exists u, fst (get_user id e s) = res_json (JUser u)
                 /\ In u (users s) /\ _id u = oid)
    /\ (~ In oid (List.map _id (users s)) ->
       fst (get_user id e s) = res_status_json 404 (JError "User not found"))
    /\ (In oid (List.map _id (items s)) ->
       exists i, fst (get_item id e s) = res_json (JItem i)
                 /\ In i (items s) /\ _id i = oid)
    /\ (~ In oid (List.map _id (items s)) ->
       fst (get_item id e s) = res_status_json 404 (JError "Item not found"))
    /\ users (snd (get_user id e s)) = users s
    /\ items (snd (get_user id e s)) = items s
    /\ users (snd (get_item id e s)) = users s
    /\ items (snd (get_item id e s)) = items s.
Proof.
  intros id oid e s N R. destruct (new_inv _ _ N) as [V ->].
  rewrite (get_user_reachable id e s V R), (get_item_reachable id e s V R).
  cbn zeta. repeat split.
  - intros H. destruct (find_by_id_in _ _ H) as (u & F & I & E).
    rewrite F. exists u. repeat split; assumption.
  - intros H. rewrite (find_by_id_none _ _ H). reflexivity.
  - intros H. destruct (find_by_id_in _ _ H) as (u & F & I & E).
    rewrite F. exists u. repeat split; assumption.
  - intros H. rewrite (find_by_id_none _ _ H). reflexivity.
  - destruct (find _ (users s)); cbn; apply users_after_connect.
  - destruct (find _ (users s)); cbn; apply items_after_connect.
  - destruct (find _ (items s)); cbn; apply users_after_connect.
  - destruct (find _ (items s)); cbn; apply items_after_connect.
Qed.

(** X9.  Delete is not repeatable: for a valid id, with identifiers
    unique and the deployment answering both times, a second delete of the
    same id is answered 404 whatever the first one found. *)
Theorem X9_second_delete_is_404 :
  forall (id : string) (e e' : Env) (s : Server),
    ObjectId.isValid id = true ->
    reachable e = true ->
    reachable e' = true ->
    unique_ids s ->
    fst (delete_user id e' (snd (delete_user id e s)))
      = res_status_json 404 (JError "User not found")
    /\ fst (delete_item id e' (snd (delete_item id e s)))
       = res_status_json 404 (JError "Item not found").
Proof.
  intros id e e' s V R R' [Nu Ni].
  rewrite (delete_user_reachable id e' _ V R'), (delete_item_reachable id e' _ V R').
  rewrite (delete_user_reachable id e s V R), (delete_item_reachable id e s V R).
  cbn zeta. split.
  - destruct (find _ (users s)) eqn:F; cbn [snd set_docs log_call users].
    + rewrite (proj2 (find_none_iff _ _) (remove_first_unique _ _ Nu)). reflexivity.
    + rewrite users_after_connect, F. reflexivity.
  - destruct (find _ (items s)) eqn:F; cbn [snd set_docs log_call items].
    + rewrite (proj2 (find_none_iff _ _) (remove_first_unique _ _ Ni)). reflexivity.
    + rewrite items_after_connect, F. reflexivity.
Qed.

Lemma remove_first_app_last {A} (p : A -> bool) (l : list A) (x : A) :
  existsb p l = false -> p x = true -> remove_first p (l ++ [x])%list = l.
Proof.
  induction l as [|y r IH]; simpl; intros Hl Hx.
  - rewrite Hx. reflexivity.
  - apply orb_false_iff in Hl as [Hy Hr]. rewrite Hy, (IH Hr Hx). reflexivity.
Qed.

(** X10.  Delete undoes create: an item created with a 201 and then
    deleted by the hexadecimal form of its [_id] is answered 200 and the
    items are again what they were before the create; the same for a user
    created with a string email. *)
Theorem X10_delete_undoes_create :
  forall (b : value) (em : string) (e e' : Env) (s : Server),
    reachable e = true ->
    reachable e' = true ->
    ObjectId.wf (generatedId e) = true ->
    (valid_item_payload b ->
     ~ In (generatedId e) (List.map _id (items s)) ->
       status (fst (post_items b e s)) = 201%nat
       /\ fst (delete_item (ObjectId.toHexString (generatedId e)) e'
                 (snd (post_items b e s)))
          = res_json (JDeleted "Item deleted successfully"
                        (ObjectId.toHexString (generatedId e)))
       /\ items (snd (delete_item (ObjectId.toHexString (generatedId e)) e'
                        (snd (post_items b e s))))
          = items s)
    /\ (prop "email" b = VStr em ->
        em <> "" ->
        truthy (prop "name" b) = true ->
        existsb (fun u => string_matches em (User.email (doc u))) (users s) = false ->
        ~ In (generatedId e) (List.map _id (users s)) ->
       status (fst (post_users b e s)) = 201%nat
       /\ fst (delete_user (ObjectId.toHexString (generatedId e)) e'
                 (snd (post_users b e s)))
          = res_json (JDeleted "User deleted successfully"
                        (ObjectId.toHexString (generatedId e)))
       /\ users (snd (delete_user (ObjectId.toHexString (generatedId e)) e'
                        (snd (post_users b e s))))
          = users s).
Proof.
  intros b em e e' s R R' W.
  destruct (new_toHexString _ W) as [V N]. destruct (new_inv _ _ N) as [_ L].
  unfold ObjectId.toHexString in *.
  split.
  - intros Vb F.
    destruct (post_items_created b e s Vb R F) as (E1 & E2 & _).
    rewrite E1. split; [reflexivity|].
    rewrite (delete_item_reachable _ e' _ V R'). cbn zeta.
    rewrite E2, <- L.
    apply existsb_id_not_in in F.
    rewrite (find_app_last _ _ _ F) by (cbn; apply String.eqb_refl).
    cbn [fst snd set_docs items log_call].
    split; [reflexivity|].
    apply remove_first_app_last; [exact F|cbn; apply String.eqb_refl].
  - intros Em Ne Nm X F.
    assert (T : truthy (prop "email" b) = true)
      by (rewrite Em; apply truthy_string; exact Ne).
    assert (B : by_email (prop "email" b)
                = Some (fun d => string_matches em (User.email (doc d))))
      by (rewrite Em; reflexivity).
    destruct (post_users_created b e s _ T Nm B X R F) as (E1 & E2 & _).
    rewrite E1. split; [reflexivity|].
    rewrite (delete_user_reachable _ e' _ V R'). cbn zeta.
    rewrite E2, <- L.
    apply existsb_id_not_in in F.
    rewrite (find_app_last _ _ _ F) by (cbn; apply String.eqb_refl).
    cbn [fst snd set_docs users log_call].
    split; [reflexivity|].
    apply remove_first_app_last; [exact F|cbn; apply String.eqb_refl].
Qed.

(** X11.  A user created with a 201 is found again: a later get by the
    hexadecimal form of the [_id] of the response is answered 200 with the
    identical record, whose [email] and [name] are the submitted ones and
    whose [role] is the submitted one when it is truthy. *)
Theorem X11_create_user_then_get :
  forall (b : value) (e e' : Env) (s : Server) (p : Stored User.t -> bool),
    truthy (prop "email" b) = true ->
    truthy (prop "name" b) = true ->
    by_email (prop "email" b) = Some p ->
    existsb p (users s) = false ->
    reachable e = true ->
    reachable e' = true ->
    ObjectId.wf (generatedId e) = true ->
    ~ In (generatedId e) (List.map _id (users s)) ->
    exists u,
      fst (post_users b e s) = res_status_json 201 (JUser u)
      /\ _id u = generatedId e
      /\ User.email (doc u) = prop "email" b
      /\ User.name (doc u) = prop "name" b
      /\ (truthy (prop "role" b) = true -> User.role (doc u) = prop "role" b)
      /\ User.createdAt (doc u) = now e
      /\ fst (get_user (ObjectId.toHexString (_id u)) e' (snd (post_users b e s)))
         = res_json (JUser u).
Proof.
  intros b e e' s p E N B X R R' W F.
  destruct (post_users_created b e s p E N B X R F) as (E1 & E2 & _).
  eexists. split; [exact E1|]. cbn [_id doc User.email User.name User.role
    User.createdAt].
  repeat (split; [reflexivity|]).
  split; [apply or_truthy|]. split; [reflexivity|].
  destruct (new_toHexString _ W) as [V Nw]. destruct (new_inv _ _ Nw) as [_ L].
  rewrite (get_user_reachable _ e' _ V R'). cbn zeta.
  rewrite E2, <- L. unfold ObjectId.toHexString.
  rewrite find_app_last.
  - reflexivity.
  - apply existsb_id_not_in. exact F.
  - cbn. unfold ObjectId.eqb. apply String.eqb_refl.
Qed.

(** X12.  Only the identifier an id denotes matters: two valid ids that
    denote the same identifier (the same digits in another case) get the
    same answer and leave the same state on the get routes, and on the
    delete routes leave the same state and get the same status.  The body of
    a successful delete repeats the id as the request spelled it. *)
Theorem X12_id_spelling_is_irrelevant :
  forall (id1 id2 : string) (e : Env) (s : Server),
    ObjectId.isValid id1 = true ->
    ObjectId.new id1 = ObjectId.new id2 ->
    get_user id1 e s = get_user id2 e s
    /\ get_item id1 e s = get_item id2 e s
    /\ snd (delete_user id1 e s) = snd (delete_user id2 e s)
    /\ snd (delete_item id1 e s) = snd (delete_item id2 e s)
    /\ status (fst (delete_user id1 e s)) = status (fst (delete_user id2 e s))
    /\ status (fst (delete_item id1 e s)) = status (fst (delete_item id2 e s))
    /\ (status (fst (delete_user id1 e s)) = 200%nat ->
        fst (delete_user id1 e s)
        = res_json (JDeleted "User deleted successfully" id1))
    /\ (status (fst (delete_item id1 e s)) = 200%nat ->
        fst (delete_item id1 e s)
        = res_json (JDeleted "Item deleted successfully" id1)).
Proof.
  intros id1 id2 e s V1 H.
  assert (V2 : ObjectId.isValid id2 = true).
  { unfold ObjectId.new in H. rewrite V1 in H.
    destruct (ObjectId.isValid id2); [reflexivity|discriminate H]. }
  assert (L : Str.map ObjectId.lower id1 = Str.map ObjectId.lower id2).
  { rewrite (new_of_valid _ V1), (new_of_valid _ V2) in H. congruence. }
  destruct (reachable e) eqn:R.
  - rewrite (get_user_reachable id1 e s V1 R), (get_user_reachable id2 e s V2 R),
      (get_item_reachable id1 e s V1 R), (get_item_reachable id2 e s V2 R),
      (delete_user_reachable id1 e s V1 R), (delete_user_reachable id2 e s V2 R),
      (delete_item_reachable id1 e s V1 R), (delete_item_reachable id2 e s V2 R).
    cbn zeta. rewrite <- L.
    destruct (find _ (users s)); destruct (find _ (items s));
      cbn; repeat split; try reflexivity; intros Q; discriminate Q.
  - change (get_user id1 e s) with (handle (GET_user id1) e s).
    change (get_user id2 e s) with (handle (GET_user id2) e s).
    change (get_item id1 e s) with (handle (GET_item id1) e s).
    change (get_item id2 e s) with (handle (GET_item id2) e s).
    change (delete_user id1 e s) with (handle (DELETE_user id1) e s).
    change (delete_user id2 e s) with (handle (DELETE_user id2) e s).
    change (delete_item id1 e s) with (handle (DELETE_item id1) e s).
    change (delete_item id2 e s) with (handle (DELETE_item id2) e s).
    rewrite !handle_unreachable by (reflexivity || assumption).
    cbn; repeat split; try reflexivity; intros Q; discriminate Q.
Qed.

(* ===================================================================== *)
(** ** Invariants of the collections *)
(* ===================================================================== *)

(** X13.  Identifiers stay unique: along any sequence of requests, in any
    environments, every state reached from a state in which no two records
    of a collection share an [_id] is such a state; in particular every
    state reached from an empty deployment. *)
Theorem X13_ids_stay_unique :
  forall (trace : list (Request * Env)) (s : Server),
    (unique_ids s -> Forall unique_ids (states trace s))
    /\ Forall unique_ids (states trace (boot [] [])).
Proof.
  intros trace s. split; [apply states_unique_ids|].
  apply states_unique_ids. split; constructor.
Qed.

Lemma string_emails_app (l1 l2 : list (Stored User.t)) :
  string_emails (l1 ++ l2) = (string_emails l1 ++ string_emails l2)%list.
Proof.
  induction l1 as [|u r IH]; simpl; [reflexivity|].
  destruct (User.email (doc u)); simpl; rewrite IH; reflexivity.
Qed.

Lemma string_emails_matches (em : string) (l : list (Stored User.t)) :
  In em (string_emails l) ->
  existsb (fun u => string_matches em (User.email (doc u))) l = true.
Proof.
  induction l as [|u r IH]; simpl; [tauto|].
  destruct (User.email (doc u)) eqn:E; simpl; intros H;
    try (rewrite (IH H), ?orb_true_r; reflexivity).
  destruct H as [->|H]; [rewrite String.eqb_refl; reflexivity|].
  rewrite (IH H). apply orb_true_r.
Qed.

Lemma string_emails_remove_first_incl p (l : list (Stored User.t)) (em : string) :
  In em (string_emails (remove_first p l)) -> In em (string_emails l).
Proof.
  induction l as [|u r IH]; simpl; [tauto|].
  destruct (p u).
  - intros H. destruct (User.email (doc u)); simpl; auto.
  - simpl. destruct (User.email (doc u)); simpl; auto.
    intros [H|H]; [left; exact H|right; exact (IH H)].
Qed.

Lemma string_emails_remove_first_NoDup p (l : list (Stored User.t)) :
  NoDup (string_emails l) -> NoDup (string_emails (remove_first p l)).
Proof.
  induction l as [|u r IH]; simpl; [trivial|].
  destruct (p u).
  - destruct (User.email (doc u)); trivial.
    intros N. inversion N; assumption.
  - simpl. destruct (User.email (doc u)); trivial.
    intros N. inversion N as [|? ? Hn Hr]; subst.
    constructor; [|exact (IH Hr)].
    intros H. apply Hn. exact (string_emails_remove_first_incl _ _ _ H).
Qed.

Lemma handle_keeps_emails_unique (r : Request) e s :
  NoDup (string_emails (users s)) ->
  NoDup (string_emails (users (snd (handle r e s)))).
Proof.
  intros N. regimes r e s; try exact N;
    try (apply string_emails_remove_first_NoDup; exact N);
    try (destruct r; try discriminate; exact N).
  rewrite string_emails_app. cbn [string_emails doc User.email].
  destruct (prop "email" b) as [| | | |em| |] eqn:E;
    rewrite ?app_nil_r; try exact N.
  apply NoDup_snoc; [|exact N].
  intros I. apply string_emails_matches in I.
  cbn [by_email] in *.
  match goal with
  | H : Some _ = Some _ |- _ => injection H as <-
  end.
  match goal with
  | H : find _ (users s) = None |- _ => apply find_none_iff in H; congruence
  end.
Qed.

(** X14.  String emails stay unique: along any sequence of requests served
    one after the other, in any environments and whatever the server does
    with queries that are not strings, no state reached from a state in which
    no two users share a string email has two users that share one. *)
Theorem X14_string_emails_stay_unique :
  forall (trace : list (Request * Env)) (s : Server),
    NoDup (string_emails (users s)) ->
    Forall (fun x => NoDup (string_emails (users x))) (states trace s).
Proof.
  intros trace. induction trace as [|[r e] rest IH]; intros s N; simpl.
  - constructor; [exact N|constructor].
  - constructor; [exact N|]. apply IH. apply handle_keeps_emails_unique. exact N.
Qed.

(* ===================================================================== *)
(** ** start() *)
(* ===================================================================== *)

Lemma handle_connects (r : Request) e s :
  isConnected s = false ->
  uses_store r = true ->
  accepted r = true ->
  exists ops, calls (snd (handle r e s)) = (calls s ++ CallConnect :: ops)%list.
Proof.
  intros C.
  regimes r e s; intros Hu Ha; try discriminate;
    rewrite ?calls_after_connect, ?C, <- ?app_assoc; cbn [app];
    eexists; reflexivity.
Qed.

(** X15.  [start()] listens when the deployment answers the connect and
    the ping, and exits with code 1 when it does not, after a single
    connect; either way it leaves the collections and the flag as they
    were.  As the flag stays [false], the first accepted request to a store
    route after a start calls [client.connect()] once more. *)
Theorem X15_start_leaves_the_flag :
  forall (e : Env) (s : Server),
    (reachable e = true ->
       fst (start e s) = Listening
       /\ calls (snd (start e s)) = (calls s ++ [CallConnect; CallPing])%list)
    /\ (reachable e = false ->
       fst (start e s) = Exit 1
       /\ calls (snd (start e s)) = (calls s ++ [CallConnect])%list)
    /\ isConnected (snd (start e s)) = isConnected s
    /\ users (snd (start e s)) = users s
    /\ items (snd (start e s)) = items s
    /\ forall (r : Request) (e' : Env),
         isConnected s = false ->
         uses_store r = true ->
         accepted r = true ->
         exists ops,
           calls (snd (handle r e' (snd (start e s))))
           = (calls (snd (start e s)) ++ CallConnect :: ops)%list.
Proof.
  intros e s.
  assert (F : isConnected (snd (start e s)) = isConnected s).
  { unfold start, bind, client_connect, client_ping, call.
    destruct (reachable e); reflexivity. }
  split; [|split; [|split; [exact F|split; [|split]]]].
  - intros R. unfold start, bind, client_connect, client_ping, call.
    rewrite R. cbn. rewrite <- app_assoc. split; reflexivity.
  - intros R. unfold start, bind, client_connect, client_ping, call.
    rewrite R. cbn. split; reflexivity.
  - unfold start, bind, client_connect, client_ping, call.
    destruct (reachable e); reflexivity.
  - unfold start, bind, client_connect, client_ping, call.
    destruct (reachable e); reflexivity.
  - intros r e' C U A. apply handle_connects; [rewrite F; exact C|exact U|exact A].
Qed.

(* ===================================================================== *)
(** ** A new record in the lists *)
(* ===================================================================== *)

Lemma sort_desc_newest {A} `{Document A} (d : Stored A) (l : list (Stored A)) :
  (forall x, In x l -> createdAt_of (doc x) < createdAt_of (doc d)) ->
  sort_desc (l ++ [d]) = d :: sort_desc l.
Proof.
  unfold sort_desc. rewrite fold_right_app. cbn [fold_right insert_desc].
  induction l as [|x r IH]; intros N; [reflexivity|].
  cbn [fold_right]. rewrite IH by (intros y Hy; apply N; right; exact Hy).
  cbn [insert_desc].
  destruct (Z.leb_spec (createdAt_of (doc d)) (createdAt_of (doc x))) as [Le|Gt].
  - specialize (N x (or_introl eq_refl)). lia.
  - reflexivity.
Qed.

(** X16.  A record created later than every record of its collection
    heads the next list: when the clock of a successful create is past the
    [createdAt] of all stored items (users), the following GET /api/items
    (GET /api/users) is answered with the new record first. *)
Theorem X16_new_record_heads_the_list :
  forall (b : value) (e e' : Env) (s : Server),
    reachable e = true ->
    reachable e' = true ->
    (valid_item_payload b ->
     ~ In (generatedId e) (List.map _id (items s)) ->
     (forall x, In x (items s) -> Item.createdAt (doc x) < now e) ->
       exists i rest,
         fst (post_items b e s) = res_status_json 201 (JItem i)
         /\ fst (get_items e' (snd (post_items b e s)))
            = res_json (JItems (i :: rest)))
    /\ (forall p,
          truthy (prop "email" b) = true ->
          truthy (prop "name" b) = true ->
          by_email (prop "email" b) = Some p ->
          existsb p (users s) = false ->
          ~ In (generatedId e) (List.map _id (users s)) ->
          (forall x, In x (users s) -> User.createdAt (doc x) < now e) ->
          exists u rest,
            fst (post_users b e s) = res_status_json 201 (JUser u)
            /\ fst (get_users e' (snd (post_users b e s)))
               = res_json (JUsers (u :: rest))).
Proof.
  intros b e e' s R R'. split.
  - intros Vb F N.
    destruct (post_items_created b e s Vb R F) as (E1 & E2 & _).
    rewrite (get_items_reachable e' _ R'), E2.
    rewrite sort_desc_newest by exact N.
    eexists. eexists. split; [exact E1|]. reflexivity.
  - intros p E Nm B X F N.
    destruct (post_users_created b e s p E Nm B X R F) as (E1 & E2 & _).
    rewrite (get_users_reachable e' _ R'), E2.
    rewrite sort_desc_newest by exact N.
    eexists. eexists. split; [exact E1|]. reflexivity.
Qed.


(* ===================================================================== *)
(** ** Conflict and presence *)
(* ===================================================================== *)

(** X18.  For an accepted user-creation request with a string email, while
    the deployment answers: the answer is 409 exactly when some stored user
    has that string as its email, or has an array email with that string
    among its elements; a 409 writes nothing; and when no user matches, the
    answer is 201 unless the generated identifier is already taken. *)
Theorem X18_conflict_exactly_on_a_match :
  forall (b : value) (em : string) (e : Env) (s : Server),
    prop "email" b = VStr em ->
    em <> "" ->
    truthy (prop "name" b) = true ->
    reachable e = true ->
    (status (fst (post_users b e s)) = 409%nat <->
       existsb (fun u => string_matches em (User.email (doc u))) (users s) = true)
    /\ (status (fst (post_users b e s)) = 409%nat ->
        users (snd (post_users b e s)) = users s)
    /\ (existsb (fun u => string_matches em (User.email (doc u))) (users s) = false ->
        status (fst (post_users b e s))
        = if existsb (fun x => ObjectId.eqb (_id x) (generatedId e)) (users s)
          then 500%nat else 201%nat).
Proof.
  intros b em e s Em Ne Nm R.
  assert (T : truthy (prop "email" b) = true)
    by (rewrite Em; apply truthy_string; exact Ne).
  assert (B : by_email (prop "email" b)
              = Some (fun d => string_matches em (User.email (doc d))))
    by (rewrite Em; reflexivity).
  rewrite (post_users_reachable b e s _ T Nm B R). cbn zeta.
  destruct (find _ (users s)) as [u|] eqn:F.
  - assert (X : existsb (fun u => string_matches em (User.email (doc u))) (users s)
                = true).
    { destruct (existsb _ (users s)) eqn:X; [reflexivity|].
      apply find_none_iff in X. congruence. }
    rewrite X. cbn. rewrite users_after_connect.
    split; [split; reflexivity|]. split; [reflexivity|discriminate].
  - apply find_none_iff in F. rewrite F.
    destruct (existsb (fun x : Stored User.t => ObjectId.eqb (_id x) (generatedId e))
                (users s)); cbn;
      (split; [split; discriminate|]); (split; [discriminate|reflexivity]).
Qed.

Lemma remove_first_length {A} (p : A -> bool) (l : list A) (d : A) :
  find p l = Some d -> S (List.length (remove_first p l)) = List.length l.
Proof.
  intros F. destruct (remove_first_split _ _ _ F) as (b & a & E1 & E2 & _).
  rewrite E2, E1, !length_app. simpl. lia.
Qed.

(** X19.  Delete answers by presence: for a valid id while the deployment
    answers, the answer is 200 exactly when some record of the collection
    has the identifier the id denotes, and 404 exactly when none has; a 200
    shortens the collection by one record and a 404 leaves it as it was. *)
Theorem X19_delete_answers_by_presence :
  forall (id : string) (oid : ObjectId.t) (e : Env) (s : Server),
    ObjectId.new id = Some oid ->
    reachable e = true ->
    (status (fst (delete_user id e s)) = 200%nat <->
       In oid (List.map _id (users s)))
    /\ (status (fst (delete_user id e s)) = 404%nat <->
        ~ In oid (List.map _id (users s)))
    /\ List.length (users s)
       = ((if status (fst (delete_user id e s)) =? 200 then 1 else 0)
          + List.length (users (snd (delete_user id e s))))%nat
    /\ (status (fst (delete_item id e s)) = 200%nat <->
        In oid (List.map _id (items s)))
    /\ (status (fst (delete_item id e s)) = 404%nat <->
        ~ In oid (List.map _id (items s)))
    /\ List.length (items s)
       = ((if status (fst (delete_item id e s)) =? 200 then 1 else 0)
          + List.length (items (snd (delete_item id e s))))%nat.
Proof.
  intros id oid e s N R. destruct (new_inv _ _ N) as [V ->].
  rewrite (delete_user_reachable id e s V R), (delete_item_reachable id e s V R).
  cbn zeta.
  split; [|split; [|split; [|split; [|split]]]].
  - destruct (find _ (users s)) as [u|] eqn:F; cbn.
    + split; [intros _|reflexivity]. apply existsb_id_in.
      destruct (existsb _ (users s)) eqn:X; [reflexivity|].
      apply find_none_iff in X. congruence.
    + split; [discriminate|]. intros I. apply existsb_id_in in I.
      apply find_none_iff in F. congruence.
  - destruct (find _ (users s)) as [u|] eqn:F; cbn.
    + split; [discriminate|]. intros I. exfalso. apply I, existsb_id_in.
      destruct (existsb _ (users s)) eqn:X; [reflexivity|].
      apply find_none_iff in X. congruence.
    + split; [intros _|reflexivity]. apply existsb_id_not_in, find_none_iff, F.
  - destruct (find _ (users s)) as [u|] eqn:F; cbn.
    + symmetry. exact (remove_first_length _ _ _ F).
    + rewrite users_after_connect. reflexivity.
  - destruct (find _ (items s)) as [u|] eqn:F; cbn.
    + split; [intros _|reflexivity]. apply existsb_id_in.
      destruct (existsb _ (items s)) eqn:X; [reflexivity|].
      apply find_none_iff in X. congruence.
    + split; [discriminate|]. intros I. apply existsb_id_in in I.
      apply find_none_iff in F. congruence.
  - destruct (find _ (items s)) as [u|] eqn:F; cbn.
    + split; [discriminate|]. intros I. exfalso. apply I, existsb_id_in.
      destruct (existsb _ (items s)) eqn:X; [reflexivity|].
      apply find_none_iff in X. congruence.
    + split; [intros _|reflexivity]. apply existsb_id_not_in, find_none_iff, F.
  - destruct (find _ (items s)) as [u|] eqn:F; cbn.
    + symmetry. exact (remove_first_length _ _ _ F).
    + rewrite items_after_connect. reflexivity.
Qed.

End Api.

(* ===================================================================== *)
(** ** Sample runs *)
(* ===================================================================== *)

Example allow_list_unset :
  Cors.allowedOrigins (Cors.CLIENT_URL None) = ["http://localhost:5173"].
Proof. reflexivity. Qed.

Example allow_list_two :
  Cors.allowedOrigins " https://chef.example.com ,http://localhost:3000,, "
  = ["https://chef.example.com"; "http://localhost:3000"].
Proof. reflexivity. Qed.

Example allow_list_blank :
  Cors.allowedOrigins " , "
  = ["http://localhost:3000"; "http://localhost:5173"].
Proof. reflexivity. Qed.

Example split_keeps_empty_pieces :
  Str.split ","%char "a,,b," = ["a"; ""; "b"; ""].
Proof. reflexivity. Qed.

Example isValid_upper_case : ObjectId.isValid "507F1F77BCF86CD799439011" = true.
Proof. reflexivity. Qed.

Example isValid_short : ObjectId.isValid "507f1f77bcf8" = false.
Proof. reflexivity. Qed.

(** A valid request while the deployment cannot be reached: the connect
    is attempted, throws, and the answer is 500; the flag stays [false]. *)
Example get_item_offline :
  get_item "507f1f77bcf86cd799439011" Sample.offline Sample.cold
  = (res_status_json 500 (JError "Internal server error"),
     mkServer false [Sample.bob] [Sample.soup] [CallConnect]).
Proof. reflexivity. Qed.

(** An insert under an identifier the collection already has is refused by
    the index and answered 500; the collection is unchanged. *)
Example post_items_duplicate_key :
  post_items tacos (mkEnv 0 Sample.oid1 true) Sample.warm
  = (res_status_json 500 (JError "Internal server error"),
     mkServer true [Sample.bob] [Sample.soup] [CallConnect; CallInsertOne "items"]).
Proof. reflexivity. Qed.

(** 150 items: the list has the 100 newest, newest first. *)
Example get_items_cap :
  Sample.createdAts (fst (get_items Sample.env1 (boot [] (Sample.menu 150))))
  = List.map Z.of_nat (rev (seq 50 100)).
Proof. vm_compute. reflexivity. Qed.

(** A local start followed by the first request: [client.connect()] is
    called by [start()] and again by [connectToMongo]. *)
Example start_then_first_request :
  calls (snd (get_users Sample.env2 (snd (start Sample.env1 Sample.cold))))
  = [CallConnect; CallPing; CallConnect; CallFind "users"].
Proof. reflexivity. Qed.

(* ===================================================================== *)
(** ** The properties at sample inputs *)
(* ===================================================================== *)

(** The item handlers at a sample input: the scenario body, created while
    the collection holds another item, is found again by its id. *)
Lemma C1_create_item_then_get_witness :
  valid_item_payload tacos
  /\ reachable Sample.env1 = true
  /\ reachable Sample.env2 = true
  /\ ObjectId.wf (generatedId Sample.env1) = true
  /\ ~ In (generatedId Sample.env1) (List.map _id (items Sample.cold))
  /\ exists i,
       fst (post_items tacos Sample.env1 Sample.cold)
         = res_status_json 201 (JItem i)
       /\ fst (get_item (ObjectId.toHexString (_id i)) Sample.env2
                 (snd (post_items tacos Sample.env1 Sample.cold)))
          = res_json (JItem i).
Proof.
  assert (V : valid_item_payload tacos) by (repeat split; reflexivity).
  assert (F : ~ In (generatedId Sample.env1) (List.map _id (items Sample.cold)))
    by (simpl; intros [H|H]; [discriminate H|exact H]).
  split; [exact V|]. split; [reflexivity|]. split; [reflexivity|].
  split; [reflexivity|]. split; [exact F|].
  destruct (C1_create_item_then_get tacos Sample.env1 Sample.env2 Sample.cold
              V eq_refl eq_refl eq_refl F) as (i & E & _ & _ & _ & _ & _ & _ & _ & _ & G).
  exists i. split; [exact E|exact G].
Defined.

(** C1 as the spec words it fails on [Sample.loose]: the body is valid and
    answered 201, yet the item in the response has another [category],
    another [isLarge], another [tags] and no [calories], so it does not
    echo every submitted field. *)
Lemma C1_not_every_field_echoed :
  valid_item_payload Sample.loose
  /\ exists i,
       fst (post_items Sample.loose Sample.env1 Sample.cold)
         = res_status_json 201 (JItem i)
       /\ Item.field "category" (doc i) <> prop "category" Sample.loose
       /\ Item.field "isLarge" (doc i) <> prop "isLarge" Sample.loose
       /\ Item.field "tags" (doc i) <> prop "tags" Sample.loose
       /\ Item.field "calories" (doc i) <> prop "calories" Sample.loose
       /\ ~ echoes_submitted Sample.loose (doc i).
Proof.
  split; [repeat split; reflexivity|].
  eexists. split; [reflexivity|].
  repeat (split; [cbn; discriminate|]).
  intros H. specialize (H "tags"). cbn in H.
  assert (C : VArr [] = VStr "spicy") by (apply H; discriminate).
  discriminate C.
Qed.

Lemma C2_duplicate_email_conflict_witness :
  "alice@example.com" <> ""
  /\ existsb (fun u => string_matches "alice@example.com" (User.email (doc u)))
       (users Sample.cold) = false
  /\ ~ In (generatedId Sample.env1) (List.map _id (users Sample.cold))
  /\ status (fst (post_users no_operators Sample.alice Sample.env1 Sample.cold))
     = 201%nat
  /\ status (fst (post_users no_operators Sample.alice_again Sample.env2
                    (snd (post_users no_operators Sample.alice Sample.env1
                            Sample.cold))))
     = 409%nat
  /\ List.length
       (filter (has_email "alice@example.com")
          (users (snd (post_users no_operators Sample.alice_again Sample.env2
                         (snd (post_users no_operators Sample.alice Sample.env1
                                 Sample.cold))))))
     = 1%nat.
Proof.
  assert (N : "alice@example.com" <> "") by discriminate.
  assert (F : ~ In (generatedId Sample.env1) (List.map _id (users Sample.cold)))
    by (simpl; intros [H|H]; [discriminate H|exact H]).
  split; [exact N|]. split; [reflexivity|]. split; [exact F|].
  destruct (C2_duplicate_email_conflict no_operators "alice@example.com"
              Sample.alice Sample.alice_again Sample.env1 Sample.env2 Sample.cold
              N eq_refl eq_refl eq_refl eq_refl eq_refl eq_refl eq_refl F)
    as (A & B & _ & _ & _ & C).
  split; [exact A|]. split; [exact B|exact C].
Defined.

Lemma C3_invalid_payload_rejected_before_store_witness :
  JS.missing "email" Sample.name_only
  /\ JS.missing "description" Sample.name_only
  /\ status (fst (post_users no_operators Sample.name_only Sample.offline Sample.cold))
     = 400%nat
  /\ snd (post_users no_operators Sample.name_only Sample.offline Sample.cold)
     = Sample.cold
  /\ status (fst (post_items Sample.name_only Sample.offline Sample.cold)) = 400%nat
  /\ snd (post_items Sample.name_only Sample.offline Sample.cold) = Sample.cold.
Proof.
  assert (M1 : JS.missing "email" Sample.name_only) by reflexivity.
  assert (M2 : JS.missing "description" Sample.name_only) by reflexivity.
  destruct (C3_invalid_payload_rejected_before_store no_operators
              Sample.name_only Sample.offline Sample.cold) as [U I].
  destruct (U (or_introl M1)) as [U1 U2].
  destruct (I (or_intror (or_introl M2))) as [I1 I2].
  repeat split; assumption.
Defined.

Lemma C4_malformed_id_rejected_witness :
  ObjectId.isValid "507f1f77bcf86cd79943901z" = false
  /\ status (fst (get_user "507f1f77bcf86cd79943901z" Sample.offline Sample.cold))
     = 400%nat
  /\ snd (delete_item "507f1f77bcf86cd79943901z" Sample.offline Sample.cold)
     = Sample.cold.
Proof.
  split; [reflexivity|].
  destruct (C4_malformed_id_rejected "507f1f77bcf86cd79943901z"
              Sample.offline Sample.cold eq_refl)
    as ((G & _) & _ & _ & (_ & D)).
  split; [exact G|exact D].
Defined.

Lemma C5_lists_newest_first_items_capped_witness :
  reachable Sample.env1 = true
  /\ exists its,
       fst (get_items Sample.env1 Sample.cold) = res_json (JItems its)
       /\ (List.length its <= 100)%nat.
Proof.
  split; [reflexivity|].
  destruct (C5_lists_newest_first_items_capped Sample.env1 Sample.cold eq_refl)
    as (_ & its & rest & E & _ & L & _).
  exists its. split; [exact E|exact L].
Defined.

Lemma C6_delete_then_get_witness :
  ObjectId.new "507F1F77BCF86CD799439011" = Some Sample.oid1
  /\ ObjectId.new "507f191e810c19729de860ea" = Some Sample.oid2
  /\ unique_ids Sample.cold
  /\ In Sample.bob (users Sample.cold)
  /\ ~ In Sample.oid2 (List.map _id (items Sample.cold))
  /\ fst (delete_user "507F1F77BCF86CD799439011" Sample.env1 Sample.cold)
     = res_json (JDeleted "User deleted successfully" "507F1F77BCF86CD799439011")
  /\ status (fst (get_user "507F1F77BCF86CD799439011" Sample.env2
                    (snd (delete_user "507F1F77BCF86CD799439011" Sample.env1
                            Sample.cold))))
     = 404%nat
  /\ status (fst (delete_item "507f191e810c19729de860ea" Sample.env1 Sample.cold))
     = 404%nat.
Proof.
  assert (U : unique_ids Sample.cold).
  { split; simpl; (constructor; [intros H; exact H|constructor]). }
  assert (I : In Sample.bob (users Sample.cold)) by (left; reflexivity).
  assert (F : ~ In Sample.oid2 (List.map _id (items Sample.cold)))
    by (simpl; intros [H|H]; [discriminate H|exact H]).
  split; [reflexivity|]. split; [reflexivity|]. split; [exact U|].
  split; [exact I|]. split; [exact F|].
  destruct (C6_delete_then_get "507F1F77BCF86CD799439011" Sample.oid1
              Sample.env1 Sample.env2 Sample.cold eq_refl eq_refl eq_refl)
    as (_ & D & _ & _).
  destruct (D Sample.bob U I eq_refl) as (D1 & _ & _ & _ & D2).
  destruct (C6_delete_then_get "507f191e810c19729de860ea" Sample.oid2
              Sample.env1 Sample.env2 Sample.cold eq_refl eq_refl eq_refl)
    as (_ & _ & M & _).
  destruct (M F) as (M1 & _).
  split; [exact D1|]. split; [exact D2|exact M1].
Defined.


Lemma C8_connect_once_never_reverts_witness :
  isConnected Sample.warm = true
  /\ isConnected Sample.cold = false
  /\ connectToMongo Sample.env1 Sample.warm = (Ok tt, Sample.warm)
  /\ calls (snd (connectToMongo Sample.env1 Sample.cold)) = [CallConnect]
  /\ isConnected (snd (connectToMongo Sample.offline Sample.cold)) = false
  /\ (forall e', connectToMongo e' (snd (connectToMongo Sample.env1 Sample.cold))
                 = (Ok tt, snd (connectToMongo Sample.env1 Sample.cold)))
  /\ Forall (fun x => isConnected x = true)
       (states no_operators
          [(GET_items, Sample.offline); (DELETE_user "x", Sample.env1)]
          Sample.warm).
Proof.
  destruct (C8_connect_once_never_reverts no_operators) as (A & B & C & D & _).
  split; [reflexivity|]. split; [reflexivity|].
  split; [exact (A Sample.env1 Sample.warm eq_refl)|].
  split; [exact (proj1 (B Sample.env1 Sample.cold eq_refl))|].
  split; [exact (proj1 (proj2 (B Sample.offline Sample.cold eq_refl)))|].
  split; [exact (proj2 (C Sample.env1 Sample.cold _ eq_refl))|].
  exact (D _ Sample.warm eq_refl).
Defined.

Lemma C10_falsy_values_take_defaults_witness :
  reachable Sample.env1 = true
  /\ truthy (prop "role" Sample.falsy) = false
  /\ truthy (prop "category" Sample.falsy) = false
  /\ truthy (prop "image" Sample.falsy) = false
  /\ truthy (prop "badge" Sample.falsy) = false
  /\ truthy (prop "badgeColor" Sample.falsy) = false
  /\ valid_item_payload Sample.falsy
  /\ (exists u,
        fst (post_users no_operators Sample.falsy Sample.env1 Sample.cold)
          = res_status_json 201 (JUser u)
        /\ User.role (doc u) = VStr "staff")
  /\ (exists i,
        fst (post_items Sample.falsy Sample.env1 Sample.cold)
          = res_status_json 201 (JItem i)
        /\ Item.category (doc i) = VStr "Uncategorized"
        /\ Item.image (doc i) = VStr ""
        /\ Item.badge (doc i) = VNull
        /\ Item.badgeColor (doc i) = VNull).
Proof.
  assert (V : valid_item_payload Sample.falsy) by (repeat split; reflexivity).
  assert (Fu : ~ In (generatedId Sample.env1) (List.map _id (users Sample.cold)))
    by (simpl; intros [H|H]; [discriminate H|exact H]).
  assert (Fi : ~ In (generatedId Sample.env1) (List.map _id (items Sample.cold)))
    by (simpl; intros [H|H]; [discriminate H|exact H]).
  repeat (split; [reflexivity|]). split; [exact V|].
  destruct (C10_falsy_values_take_defaults no_operators Sample.falsy Sample.env1
              Sample.cold eq_refl) as (U & I).
  destruct (U _ eq_refl eq_refl eq_refl eq_refl Fu eq_refl) as (u & E1 & E2 & _).
  destruct (I V Fi) as (i & G1 & _ & G2 & G3 & G4 & G5).
  split; [exists u; split; assumption|].
  exists i. split; [exact G1|].
  split; [exact (G2 eq_refl)|]. split; [exact (G3 eq_refl)|].
  split; [exact (G4 eq_refl)|exact (G5 eq_refl)].
Defined.

(* ===================================================================== *)
(** ** More properties at sample inputs *)
(* ===================================================================== *)

Lemma X1_mongodb_uri_never_empty_witness :
  Config.or_string (Config.MONGODB_URI Sample.bare) "" = ""
  /\ Config.DB_USER Sample.bare = None
  /\ Config.DB_PASS Sample.bare = None
  /\ Config.mongodb_uri Sample.bare
     = "mongodb+srv://undefined:undefined@" ++ Config.mongo_cluster Sample.bare
         ++ "/?appName=Cluster0".
Proof.
  destruct (X1_mongodb_uri_never_empty Sample.bare) as (_ & _ & U).
  split; [reflexivity|]. split; [reflexivity|]. split; [reflexivity|].
  exact (U eq_refl eq_refl eq_refl).
Defined.

Lemma X2_allow_list_never_empty_and_clean_witness :
  Config.or_string (Config.CLIENT_URL Sample.bare) "" = ""
  /\ Config.allowed_origins Sample.bare = ["http://localhost:5173"]
  /\ Config.allowed_origins Sample.deployed <> [].
Proof.
  destruct (X2_allow_list_never_empty_and_clean Sample.bare) as (_ & _ & U).
  destruct (X2_allow_list_never_empty_and_clean Sample.deployed) as (N & _ & _).
  split; [reflexivity|]. split; [exact (U eq_refl)|exact N].
Defined.

Lemma X3_rejections_and_frames_witness :
  accepted (POST_items (VObj [("name", VStr "Tacos"); ("description", VStr "");
                              ("price", VStr "8.5")])) = false
  /\ handle no_operators
       (POST_items (VObj [("name", VStr "Tacos"); ("description", VStr "");
                          ("price", VStr "8.5")]))
       Sample.env1 Sample.cold
     = (res_status_json 400
          (JError "name, description, and numeric price are required"),
        Sample.cold)
  /\ (400 <= status (fst (handle no_operators (GET_user Sample.oid2) Sample.env1
                            Sample.cold)))%nat
  /\ users (snd (handle no_operators (GET_user Sample.oid2) Sample.env1 Sample.cold))
     = users Sample.cold.
Proof.
  destruct (X3_rejections_and_frames no_operators
              (POST_items (VObj [("name", VStr "Tacos"); ("description", VStr "");
                                 ("price", VStr "8.5")]))
              Sample.env1 Sample.cold) as (_ & J & _ & _).
  destruct (X3_rejections_and_frames no_operators (GET_user Sample.oid2)
              Sample.env1 Sample.cold) as (_ & _ & W & _).
  assert (L : (400 <= status (fst (handle no_operators (GET_user Sample.oid2)
                                     Sample.env1 Sample.cold)))%nat)
    by (vm_compute; lia).
  split; [reflexivity|]. split; [exact (J eq_refl)|].
  split; [exact L|exact (proj1 (W L))].
Defined.

Lemma X4_unreachable_is_500_witness :
  uses_store (POST_items tacos) = true
  /\ accepted (POST_items tacos) = true
  /\ reachable Sample.offline = false
  /\ fst (handle no_operators (POST_items tacos) Sample.offline Sample.warm)
     = res_status_json 500 (JError "Internal server error")
  /\ items (snd (handle no_operators (POST_items tacos) Sample.offline Sample.warm))
     = items Sample.warm.
Proof.
  destruct (X4_unreachable_is_500 no_operators (POST_items tacos) Sample.offline
              Sample.warm eq_refl eq_refl eq_refl) as (A & _ & B & _).
  split; [reflexivity|]. split; [reflexivity|]. split; [reflexivity|].
  split; [exact A|exact B].
Defined.

Lemma X5_status_table_witness :
  status (fst (handle no_operators (POST_items tacos) (mkEnv 0 Sample.oid1 true)
                 Sample.warm)) = 500%nat
  /\ fst (handle no_operators (POST_items tacos) (mkEnv 0 Sample.oid1 true)
            Sample.warm)
     = res_status_json 500 (JError "Internal server error").
Proof.
  destruct (X5_status_table no_operators (POST_items tacos)
              (mkEnv 0 Sample.oid1 true) Sample.warm) as (_ & G & _).
  split; [reflexivity|exact (G eq_refl)].
Defined.

Lemma X7_created_means_stored_witness :
  status (fst (post_users no_operators Sample.alice Sample.env1 Sample.cold)) = 201%nat
  /\ status (fst (post_items tacos Sample.env1 Sample.cold)) = 201%nat
  /\ (exists u, users (snd (post_users no_operators Sample.alice Sample.env1
                              Sample.cold))
                = (users Sample.cold ++ [u])%list)
  /\ (exists i, items (snd (post_items tacos Sample.env1 Sample.cold))
                = (items Sample.cold ++ [i])%list).
Proof.
  destruct (X7_created_means_stored no_operators Sample.alice Sample.env1
              Sample.cold) as (U & _).
  destruct (X7_created_means_stored no_operators tacos Sample.env1
              Sample.cold) as (_ & I).
  destruct (U eq_refl) as (u & _ & Eu & _).
  destruct (I eq_refl) as (i & _ & Ei & _).
  split; [reflexivity|]. split; [reflexivity|].
  split; [exists u; exact Eu|exists i; exact Ei].
Defined.

Lemma X8_get_by_id_finds_the_record_witness :
  ObjectId.new "507F1F77BCF86CD799439011" = Some Sample.oid1
  /\ ObjectId.new "507f191e810c19729de860ea" = Some Sample.oid2
  /\ In Sample.oid1 (List.map _id (users Sample.cold))
  /\ ~ In Sample.oid2 (List.map _id (items Sample.cold))
  /\ (exists u, fst (get_user "507F1F77BCF86CD799439011" Sample.env1 Sample.cold)
                = res_json (JUser u) /\ _id u = Sample.oid1)
  /\ fst (get_item "507f191e810c19729de860ea" Sample.env1 Sample.cold)
     = res_status_json 404 (JError "Item not found").
Proof.
  assert (I : In Sample.oid1 (List.map _id (users Sample.cold)))
    by (left; reflexivity).
  assert (F : ~ In Sample.oid2 (List.map _id (items Sample.cold)))
    by (simpl; intros [H|H]; [discriminate H|exact H]).
  destruct (X8_get_by_id_finds_the_record "507F1F77BCF86CD799439011" Sample.oid1
              Sample.env1 Sample.cold eq_refl eq_refl) as (A & _).
  destruct (X8_get_by_id_finds_the_record "507f191e810c19729de860ea" Sample.oid2
              Sample.env1 Sample.cold eq_refl eq_refl) as (_ & _ & _ & B & _).
  destruct (A I) as (u & E1 & _ & E2).
  split; [reflexivity|]. split; [reflexivity|]. split; [exact I|]. split; [exact F|].
  split; [exists u; split; assumption|exact (B F)].
Defined.

Lemma X9_second_delete_is_404_witness :
  ObjectId.isValid "507f1f77bcf86cd799439011" = true
  /\ unique_ids Sample.cold
  /\ status (fst (delete_user "507f1f77bcf86cd799439011" Sample.env1 Sample.cold))
     = 200%nat
  /\ fst (delete_user "507f1f77bcf86cd799439011" Sample.env2
            (snd (delete_user "507f1f77bcf86cd799439011" Sample.env1 Sample.cold)))
     = res_status_json 404 (JError "User not found").
Proof.
  assert (U : unique_ids Sample.cold).
  { split; simpl; (constructor; [intros H; exact H|constructor]). }
  destruct (X9_second_delete_is_404 "507f1f77bcf86cd799439011" Sample.env1
              Sample.env2 Sample.cold eq_refl eq_refl eq_refl U) as (A & _).
  split; [reflexivity|]. split; [exact U|]. split; [reflexivity|exact A].
Defined.

Lemma X10_delete_undoes_create_witness :
  valid_item_payload Sample.falsy
  /\ prop "email" Sample.falsy = VStr "carol@example.com"
  /\ ObjectId.wf (generatedId Sample.env1) = true
  /\ ~ In (generatedId Sample.env1) (List.map _id (items Sample.cold))
  /\ ~ In (generatedId Sample.env1) (List.map _id (users Sample.cold))
  /\ items (snd (delete_item (ObjectId.toHexString (generatedId Sample.env1))
                   Sample.env2 (snd (post_items Sample.falsy Sample.env1 Sample.cold))))
     = items Sample.cold
  /\ users (snd (delete_user (ObjectId.toHexString (generatedId Sample.env1))
                   Sample.env2
                   (snd (post_users no_operators Sample.falsy Sample.env1
                           Sample.cold))))
     = users Sample.cold.
Proof.
  assert (V : valid_item_payload Sample.falsy) by (repeat split; reflexivity).
  assert (Fi : ~ In (generatedId Sample.env1) (List.map _id (items Sample.cold)))
    by (simpl; intros [H|H]; [discriminate H|exact H]).
  assert (Fu : ~ In (generatedId Sample.env1) (List.map _id (users Sample.cold)))
    by (simpl; intros [H|H]; [discriminate H|exact H]).
  assert (N : "carol@example.com" <> "") by discriminate.
  destruct (X10_delete_undoes_create no_operators Sample.falsy "carol@example.com"
              Sample.env1 Sample.env2 Sample.cold eq_refl eq_refl eq_refl)
    as (I & U).
  destruct (I V Fi) as (_ & _ & I3).
  destruct (U eq_refl N eq_refl eq_refl Fu) as (_ & _ & U3).
  split; [exact V|]. split; [reflexivity|]. split; [reflexivity|].
  split; [exact Fi|]. split; [exact Fu|]. split; [exact I3|exact U3].
Defined.

Lemma X11_create_user_then_get_witness :
  truthy (prop "email" Sample.alice_again) = true
  /\ truthy (prop "name" Sample.alice_again) = true
  /\ ObjectId.wf (generatedId Sample.env1) = true
  /\ ~ In (generatedId Sample.env1) (List.map _id (users Sample.cold))
  /\ exists u,
       fst (post_users no_operators Sample.alice_again Sample.env1 Sample.cold)
         = res_status_json 201 (JUser u)
       /\ User.role (doc u) = VStr "admin"
       /\ fst (get_user (ObjectId.toHexString (_id u)) Sample.env2
                 (snd (post_users no_operators Sample.alice_again Sample.env1
                         Sample.cold)))
          = res_json (JUser u).
Proof.
  assert (F : ~ In (generatedId Sample.env1) (List.map _id (users Sample.cold)))
    by (simpl; intros [H|H]; [discriminate H|exact H]).
  destruct (X11_create_user_then_get no_operators Sample.alice_again Sample.env1
              Sample.env2 Sample.cold _ eq_refl eq_refl eq_refl eq_refl eq_refl
              eq_refl eq_refl F) as (u & E & _ & _ & _ & Rl & _ & G).
  split; [reflexivity|]. split; [reflexivity|]. split; [reflexivity|].
  split; [exact F|].
  exists u. split; [exact E|]. split; [exact (Rl eq_refl)|exact G].
Defined.

Lemma X12_id_spelling_is_irrelevant_witness :
  ObjectId.isValid "507F1F77BCF86CD799439011" = true
  /\ ObjectId.new "507F1F77BCF86CD799439011" = ObjectId.new "507f1f77bcf86cd799439011"
  /\ get_user "507F1F77BCF86CD799439011" Sample.env1 Sample.cold
     = get_user "507f1f77bcf86cd799439011" Sample.env1 Sample.cold
  /\ fst (delete_item "507F1F77BCF86CD799439011" Sample.env1 Sample.cold)
     = res_json (JDeleted "Item deleted successfully" "507F1F77BCF86CD799439011").
Proof.
  destruct (X12_id_spelling_is_irrelevant no_operators "507F1F77BCF86CD799439011"
              "507f1f77bcf86cd799439011" Sample.env1 Sample.cold eq_refl eq_refl)
    as (A & _ & _ & _ & _ & _ & _ & B).
  split; [reflexivity|]. split; [reflexivity|]. split; [exact A|exact (B eq_refl)].
Defined.

Lemma X13_ids_stay_unique_witness :
  unique_ids Sample.cold
  /\ Forall unique_ids (states no_operators Sample.session Sample.cold).
Proof.
  assert (U : unique_ids Sample.cold).
  { split; simpl; (constructor; [intros H; exact H|constructor]). }
  split; [exact U|].
  exact (proj1 (X13_ids_stay_unique no_operators Sample.session Sample.cold) U).
Defined.

Lemma X14_string_emails_stay_unique_witness :
  NoDup (string_emails (users Sample.cold))
  /\ Forall (fun x => NoDup (string_emails (users x)))
       (states no_operators Sample.session Sample.cold).
Proof.
  assert (N : NoDup (string_emails (users Sample.cold))).
  { simpl. constructor; [intros H; exact H|constructor]. }
  split; [exact N|].
  exact (X14_string_emails_stay_unique no_operators Sample.session Sample.cold N).
Defined.

Lemma X15_start_leaves_the_flag_witness :
  reachable Sample.env1 = true
  /\ reachable Sample.offline = false
  /\ isConnected Sample.cold = false
  /\ fst (start Sample.env1 Sample.cold) = Listening
  /\ fst (start Sample.offline Sample.cold) = Exit 1
  /\ exists ops,
       calls (snd (handle no_operators GET_users Sample.env2
                     (snd (start Sample.env1 Sample.cold))))
       = (calls (snd (start Sample.env1 Sample.cold)) ++ CallConnect :: ops)%list.
Proof.
  destruct (X15_start_leaves_the_flag no_operators Sample.env1 Sample.cold)
    as (A & _ & _ & _ & _ & C).
  destruct (X15_start_leaves_the_flag no_operators Sample.offline Sample.cold)
    as (_ & B & _).
  split; [reflexivity|]. split; [reflexivity|]. split; [reflexivity|].
  split; [exact (proj1 (A eq_refl))|]. split; [exact (proj1 (B eq_refl))|].
  exact (C GET_users Sample.env2 eq_refl eq_refl eq_refl).
Defined.

Lemma X16_new_record_heads_the_list_witness :
  valid_item_payload tacos
  /\ ~ In (generatedId Sample.env1) (List.map _id (items Sample.cold))
  /\ (forall x, In x (items Sample.cold) ->
        Item.createdAt (doc x) < now Sample.env1)
  /\ (forall x, In x (users Sample.cold) ->
        User.createdAt (doc x) < now Sample.env1)
  /\ (exists i rest,
        fst (get_items Sample.env2 (snd (post_items tacos Sample.env1 Sample.cold)))
        = res_json (JItems (i :: rest)))
  /\ (exists u rest,
        fst (get_users Sample.env2
               (snd (post_users no_operators Sample.alice Sample.env1 Sample.cold)))
        = res_json (JUsers (u :: rest))).
Proof.
  assert (V : valid_item_payload tacos) by (repeat split; reflexivity).
  assert (Fi : ~ In (generatedId Sample.env1) (List.map _id (items Sample.cold)))
    by (simpl; intros [H|H]; [discriminate H|exact H]).
  assert (Fu : ~ In (generatedId Sample.env1) (List.map _id (users Sample.cold)))
    by (simpl; intros [H|H]; [discriminate H|exact H]).
  assert (Ni : forall x, In x (items Sample.cold) ->
                 Item.createdAt (doc x) < now Sample.env1)
    by (intros x [<-|[]]; reflexivity).
  assert (Nu : forall x, In x (users Sample.cold) ->
                 User.createdAt (doc x) < now Sample.env1)
    by (intros x [<-|[]]; reflexivity).
  destruct (X16_new_record_heads_the_list no_operators tacos Sample.env1 Sample.env2
              Sample.cold eq_refl eq_refl) as (I & _).
  destruct (X16_new_record_heads_the_list no_operators Sample.alice Sample.env1
              Sample.env2 Sample.cold eq_refl eq_refl) as (_ & U).
  destruct (I V Fi Ni) as (i & rest & E1 & E2).
  destruct (U _ eq_refl eq_refl eq_refl eq_refl Fu Nu) as (u & rest' & _ & E4).
  split; [exact V|]. split; [exact Fi|]. split; [exact Ni|]. split; [exact Nu|].
  split.
  - exists i, rest. exact E2.
  - exists u, rest'. exact E4.
Defined.


(** A stored user whose email is an array holding the address blocks the
    registration of that address. *)
Lemma X18_conflict_exactly_on_a_match_witness :
  "alice@example.com" <> ""
  /\ reachable Sample.env1 = true
  /\ status (fst (post_users no_operators Sample.alice Sample.env1
                    (boot [mkStored Sample.oid1
                             (User.mk (VArr [VStr "alice@example.com"])
                                (VStr "Team") (VStr "staff") 0)] [])))
     = 409%nat
  /\ status (fst (post_users no_operators Sample.alice Sample.env1 Sample.cold))
     = 201%nat.
Proof.
  assert (N : "alice@example.com" <> "") by discriminate.
  destruct (X18_conflict_exactly_on_a_match no_operators Sample.alice
              "alice@example.com" Sample.env1
              (boot [mkStored Sample.oid1
                       (User.mk (VArr [VStr "alice@example.com"])
                          (VStr "Team") (VStr "staff") 0)] [])
              eq_refl N eq_refl eq_refl) as (A & _ & _).
  destruct (X18_conflict_exactly_on_a_match no_operators Sample.alice
              "alice@example.com" Sample.env1 Sample.cold
              eq_refl N eq_refl eq_refl) as (_ & _ & B).
  split; [exact N|]. split; [reflexivity|].
  split; [exact (proj2 A eq_refl)|exact (B eq_refl)].
Defined.

Lemma X19_delete_answers_by_presence_witness :
  ObjectId.new "507F1F77BCF86CD799439011" = Some Sample.oid1
  /\ reachable Sample.env1 = true
  /\ In Sample.oid1 (List.map _id (users Sample.cold))
  /\ status (fst (delete_user "507F1F77BCF86CD799439011" Sample.env1 Sample.cold))
     = 200%nat.
Proof.
  assert (I : In Sample.oid1 (List.map _id (users Sample.cold)))
    by (left; reflexivity).
  destruct (X19_delete_answers_by_presence "507F1F77BCF86CD799439011" Sample.oid1
              Sample.env1 Sample.cold eq_refl eq_refl) as (A & _).
  split; [reflexivity|]. split; [reflexivity|]. split; [exact I|exact (proj2 A I)].
Defined.
